(** * terminusdb_client.woqlschema.woql_schema

    A shallow embedding of the schema layer of the TerminusDB Python client
    (module [woql_schema.py]): the identifier strategies [HashKey],
    [LexicalKey], [ValueHashKey] and [RandomKey], the metaclass
    [TerminusClass], the class and instance serialisers of
    [DocumentTemplate], and the container [WOQLSchema].

    Python dictionaries keep insertion order and have unique keys; they are
    modelled as association lists updated with [dict_set], so that both the
    order and the uniqueness of keys are facts to prove and not properties of
    the carrier.  A Python [str] is modelled by the bytes of its UTF-8
    encoding, which makes [s.encode("utf-8")] the identity. *)

From Stdlib Require Import List String Ascii ZArith Lia Bool DecimalString.
From Stdlib Require Import Permutation.
From stdpp Require gmap.
Import ListNotations.
Local Open Scope string_scope.
Local Open Scope list_scope.

Set Implicit Arguments.
Set Warnings "-register-all".
Set Warnings "-notation-overridden".
Set Warnings "-ambiguous-paths".

(** ** Exceptions and fallible computations *)

Inductive exn : Type :=
| ValueError_cannot_get (item : string)  (* "Cannot get {item} from {obj}" *)
| ValueError_not_datatype                (* "Keys need to be datatype object" *)
| ValueError_prefix                      (* "Cannot determin prefix from {obj}" *)
| ValueError_malformed                   (* ast.literal_eval: malformed node or string *)
| ValueError_not_in_list                 (* list.index: x not in list *)
| TypeError_concat                       (* unsupported operand types for + *)
| TypeError_abstract (name : string)     (* "{name} is an abstract class." *)
| TypeError_check_type (name : string)   (* typeguard.check_type *)
| AttributeError (attr : string).        (* the object has no such attribute *)

Inductive result (A : Type) : Type :=
| Ok (a : A)
| Raise (e : exn).
Arguments Ok {A} a.
Arguments Raise {A} e.

Definition bind {A B : Type} (m : result A) (k : A -> result B) : result B :=
  match m with
  | Ok a => k a
  | Raise e => Raise e
  end.

Notation "x <- m ;; k" := (bind m (fun x => k))
  (at level 100, m at next level, right associativity).

Definition is_ok {A : Type} (m : result A) : bool :=
  match m with Ok _ => true | Raise _ => false end.

(** ** Python dictionaries *)

Section Dict.
Variable V : Type.

Definition dict := list (string * V).

Fixpoint dict_get (d : dict) (k : string) : option V :=
  match d with
  | [] => None
  | (k', v) :: d' => if String.eqb k' k then Some v else dict_get d' k
  end.

(** [d[k] = v]: an existing key keeps its position, a new one goes last. *)
Fixpoint dict_set (d : dict) (k : string) (v : V) : dict :=
  match d with
  | [] => [(k, v)]
  | (k', v') :: d' =>
      if String.eqb k' k then (k', v) :: d' else (k', v') :: dict_set d' k v
  end.

Definition dict_keys (d : dict) : list string := map fst d.

Definition dict_has (d : dict) (k : string) : bool :=
  match dict_get d k with Some _ => true | None => false end.

(** [d.update(other)]: every entry of [other], in its order, is assigned. *)
Definition dict_update (d other : dict) : dict :=
  fold_left (fun acc kv => dict_set acc (fst kv) (snd kv)) other d.

(** Number of entries stored under [k]. *)
Definition dict_count (d : dict) (k : string) : nat :=
  List.length (filter (String.eqb k) (dict_keys d)).
End Dict.

Arguments dict_get {V} d k.
Arguments dict_set {V} d k v.
Arguments dict_keys {V} d.
Arguments dict_has {V} d k.
Arguments dict_update {V} d other.
Arguments dict_count {V} d k.

(** ** Python types, as annotations and as run-time classes of values *)

Inductive pytype : Type :=
| TyStr | TyInt | TyBool | TyFloat | TyNoneType | TyList | TyDict
| TyDocument (name : string)     (* a DocumentTemplate subclass *)
| TyEnum (name : string)         (* an Enum subclass *)
| TyOptional (t : pytype)        (* typing.Optional[t] *)
| TyListOf (t : pytype).         (* typing.List[t] *)

Fixpoint pytype_eqb (a b : pytype) : bool :=
  match a, b with
  | TyStr, TyStr | TyInt, TyInt | TyBool, TyBool | TyFloat, TyFloat
  | TyNoneType, TyNoneType | TyList, TyList | TyDict, TyDict => true
  | TyDocument x, TyDocument y | TyEnum x, TyEnum y => String.eqb x y
  | TyOptional x, TyOptional y | TyListOf x, TyListOf y => pytype_eqb x y
  | _, _ => false
  end.

(** [issubclass]: besides reflexivity, only [bool <= int] matters here. *)
Definition issubclass (a b : pytype) : bool :=
  pytype_eqb a b || match a, b with TyBool, TyInt => true | _, _ => false end.

(** ** TerminusClass.__init__ : the merged annotations

    <<
    if "__annotations__" in nmspc:
        cls._annotations = copy(nmspc["__annotations__"])
    else:
        cls._annotations = {}
    for parent in bases:
        base_annotations = (
            parent._annotations if hasattr(parent, "_annotations") else {}
        )
        cls._annotations.update(base_annotations)
    >> *)

Definition annotations := dict pytype.

Definition base_annotations (parent : option annotations) : annotations :=
  match parent with Some a => a | None => [] end.

Definition TerminusClass_annotations
    (nmspc_annotations : option annotations)
    (bases : list (option annotations)) : annotations :=
  fold_left (fun acc parent => dict_update acc (base_annotations parent))
            bases
            (match nmspc_annotations with Some a => a | None => [] end).

(** The merge as the specification words it: start from the body's own
    fields and add only the ancestor fields that are not present yet. *)
Definition dict_setdefault_all (d other : annotations) : annotations :=
  fold_left (fun acc kv => if dict_has acc (fst kv) then acc
                           else dict_set acc (fst kv) (snd kv)) other d.

Definition spec_merged_annotations
    (nmspc_annotations : option annotations)
    (bases : list (option annotations)) : annotations :=
  fold_left (fun acc parent => dict_setdefault_all acc (base_annotations parent))
            bases
            (match nmspc_annotations with Some a => a | None => [] end).

(** ** Identifier strategies: the objects stored in a class's [_key] *)

(** [_keys : Union[str, list]].  Iterating a [str] yields its characters. *)
Inductive keys_spec : Type :=
| KeysStr (s : string)
| KeysList (l : list string).

Fixpoint chars (s : string) : list string :=
  match s with
  | EmptyString => []
  | String c s' => String c EmptyString :: chars s'
  end.

Definition iter_keys (k : keys_spec) : list string :=
  match k with
  | KeysStr s => chars s
  | KeysList l => l
  end.

Inductive keystrat : Type :=
| HashKey (_keys : keys_spec)
| LexicalKey (_keys : keys_spec)
| ValueHashKey
| RandomKey.

Definition at_type (k : keystrat) : string :=
  match k with
  | HashKey _ => "Hash"
  | LexicalKey _ => "Lexical"
  | ValueHashKey => "ValueHash"
  | RandomKey => "Random"
  end.

(** [hasattr(key, "_keys")] and [key._keys]. *)
Definition key_keys (k : keystrat) : option keys_spec :=
  match k with
  | HashKey ks | LexicalKey ks => Some ks
  | ValueHashKey | RandomKey => None
  end.

(** [hasattr(key, "idgen")]: the body of [ValueHashKey.idgen] is commented
    out in the source, so that class defines no such method. *)
Definition has_idgen (k : keystrat) : bool :=
  match k with
  | ValueHashKey => false
  | HashKey _ | LexicalKey _ | RandomKey => true
  end.

(** ** Classes and values

    A class is represented by what [hasattr] and attribute reads on the class
    object answer, after Python has resolved them along the [__mro__].

    Values are the objects the serialisers meet: [None], booleans, integers,
    strings, lists, dictionaries, enumeration members and document
    instances.  An instance carries its class and its attribute dictionary;
    the values it holds form a finite tree, so the recursion of
    [_obj_to_dict] is structural (an object graph with a cycle makes the
    Python method recurse without end and has no counterpart here).
    Floating-point values are left out. *)

Record pyclass_of (V : Type) : Type := MkClass {
  c_name : string;                 (* __name__ *)
  c_base_name : string;            (* __base__.__name__ *)
  c_mro : list string;             (* the names along __mro__ *)
  c_doc : option string;           (* __doc__ *)
  c_base : option V;               (* _base, when defined *)
  c_subdocument : option V;        (* _subdocument, when defined *)
  c_abstract : option V;           (* _abstract, when defined *)
  c_key : option keystrat;         (* _key, when defined *)
  c_annotations : annotations      (* _annotations, set by TerminusClass *)
}.

Inductive value : Type :=
| VNone
| VBool (b : bool)
| VInt (z : Z)
| VStr (s : string)
| VList (l : list value)
| VDict (d : list (string * value))
| VEnum (cls : string) (str_form : string)  (* an Enum member and its str() *)
| VObj (cls : pyclass_of value) (attrs : list (string * value)).

Definition pyclass := pyclass_of value.

Definition is_None (v : value) : bool :=
  match v with VNone => true | _ => false end.

(** The class of a built-in object such as a [dict]: it has a [__name__]
    and none of the attributes this module looks for. *)
Definition builtin_class (name : string) : pyclass :=
  {| c_name := name; c_base_name := "object";
     c_mro := [name; "object"]; c_doc := None;
     c_base := None; c_subdocument := None; c_abstract := None;
     c_key := None; c_annotations := [] |}.

(** [hasattr(cls, "__name__")]: every class object has a name. *)
Definition class_has_name (c : pyclass) : bool := true.

Definition type_of (v : value) : pytype :=
  match v with
  | VNone => TyNoneType
  | VBool _ => TyBool
  | VInt _ => TyInt
  | VStr _ => TyStr
  | VList _ => TyList
  | VDict _ => TyDict
  | VEnum c _ => TyEnum c
  | VObj c _ => TyDocument (c_name c)
  end.

(** [isinstance(v, tuple(types))] *)
Definition isinstance (v : value) (types : list pytype) : bool :=
  existsb (issubclass (type_of v)) types.

(** [str(v)] for the values that can be keys. *)
Definition str_of_int (z : Z) : string := NilZero.string_of_int (Z.to_int z).

Definition py_str (v : value) : string :=
  match v with
  | VNone => "None"
  | VBool true => "True"
  | VBool false => "False"
  | VInt z => str_of_int z
  | VStr s => s
  | VEnum _ s => s
  | VList _ | VDict _ | VObj _ _ => ""   (* never a key: not a datatype *)
  end.

(** [v + "_"]: defined on strings only. *)
Definition add_str (v : value) (s : string) : result string :=
  match v with
  | VStr p => Ok (p ++ s)%string
  | _ => Raise TypeError_concat
  end.

(** Attribute names of [dict] objects (CPython 3.11, [dir(dict)]). *)
Definition dict_attributes : list string :=
  [ "__class__"; "__class_getitem__"; "__contains__"; "__delattr__";
    "__delitem__"; "__dir__"; "__doc__"; "__eq__"; "__format__"; "__ge__";
    "__getattribute__"; "__getitem__"; "__getstate__"; "__gt__"; "__hash__";
    "__init__"; "__init_subclass__"; "__ior__"; "__iter__"; "__le__";
    "__len__"; "__lt__"; "__ne__"; "__new__"; "__or__"; "__reduce__";
    "__reduce_ex__"; "__repr__"; "__reversed__"; "__ror__"; "__setattr__";
    "__setitem__"; "__sizeof__"; "__str__"; "__subclasshook__"; "clear";
    "copy"; "fromkeys"; "get"; "items"; "keys"; "pop"; "popitem";
    "setdefault"; "update"; "values" ].

(** [hasattr(obj, name)] and [obj.__class__] for the two kinds of object the
    strategies accept.  A dictionary has the attributes of [dict] and its
    keys are no attributes; an instance answers from its attribute
    dictionary, which holds its fields and [_id] (names that a field shares
    with a method or class-level attribute are not modelled). *)
Definition hasattr (obj : value) (name : string) : bool :=
  match obj with
  | VDict _ => existsb (String.eqb name) dict_attributes
  | VObj _ attrs => dict_has attrs name
  | _ => false
  end.

Definition getattr (obj : value) (name : string) : option value :=
  match obj with
  | VObj _ attrs => dict_get attrs name
  | _ => None
  end.

Definition class_of (obj : value) : pyclass :=
  match obj with
  | VObj c _ => c
  | VNone => builtin_class "NoneType"
  | VBool _ => builtin_class "bool"
  | VInt _ => builtin_class "int"
  | VStr _ => builtin_class "str"
  | VList _ => builtin_class "list"
  | VDict _ => builtin_class "dict"
  | VEnum c _ => builtin_class c
  end.

Definition is_dict (obj : value) : bool :=
  match obj with VDict _ => true | _ => false end.

(** [obj.get(k)] on a dictionary: [None] when the key is absent. *)
Definition obj_get (obj : value) (k : string) : value :=
  match obj with
  | VDict d => match dict_get d k with Some v => v | None => VNone end
  | _ => VNone
  end.

(** ** Library functions the strategies call *)

(** *** urllib.parse.quote, with its default [safe="/"] *)

Definition in_range (lo hi : nat) (c : ascii) : bool :=
  (lo <=? nat_of_ascii c)%nat && (nat_of_ascii c <=? hi)%nat.

Definition always_safe (c : ascii) : bool :=
  in_range 65 90 c || in_range 97 122 c || in_range 48 57 c
  || Ascii.eqb c "_" || Ascii.eqb c "." || Ascii.eqb c "-" || Ascii.eqb c "~".

Definition hex_upper (n : nat) : ascii :=
  nth n (list_ascii_of_string "0123456789ABCDEF") "0"%char.

Definition hex_lower (n : nat) : ascii :=
  nth n (list_ascii_of_string "0123456789abcdef") "0"%char.

Fixpoint quote (s : string) : string :=
  match s with
  | EmptyString => EmptyString
  | String c r =>
      if always_safe c || Ascii.eqb c "/" then String c (quote r)
      else String "%" (String (hex_upper (nat_of_ascii c / 16))
                      (String (hex_upper (nat_of_ascii c mod 16)) (quote r)))
  end.

(** *** hashlib.sha256(...).hexdigest(), on 32-bit words held in [Z] *)

Module SHA256.
Local Open Scope Z_scope.

Definition w32 (x : Z) : Z := x mod 2 ^ 32.
Definition rotr (n x : Z) : Z :=
  Z.lor (Z.shiftr x n) (w32 (Z.shiftl x (32 - n))).
Definition not32 (x : Z) : Z := Z.lxor x 0xffffffff.

Definition Ch (x y z : Z) : Z := Z.lxor (Z.land x y) (Z.land (not32 x) z).
Definition Maj (x y z : Z) : Z :=
  Z.lxor (Z.lxor (Z.land x y) (Z.land x z)) (Z.land y z).
Definition Sigma0 (x : Z) : Z :=
  Z.lxor (Z.lxor (rotr 2 x) (rotr 13 x)) (rotr 22 x).
Definition Sigma1 (x : Z) : Z :=
  Z.lxor (Z.lxor (rotr 6 x) (rotr 11 x)) (rotr 25 x).
Definition sigma0 (x : Z) : Z :=
  Z.lxor (Z.lxor (rotr 7 x) (rotr 18 x)) (Z.shiftr x 3).
Definition sigma1 (x : Z) : Z :=
  Z.lxor (Z.lxor (rotr 17 x) (rotr 19 x)) (Z.shiftr x 10).

(** The round constants are the first 32 bits of the fractional parts of
    the cube roots of the first 64 primes, and the initial hash value those
    of the square roots of the first 8 primes; they are computed here from
    that definition. *)
Definition is_prime (p : Z) : bool :=
  forallb (fun d => negb (p mod d =? 0))
          (map Z.of_nat (seq 2 (Z.to_nat p - 2))).

Definition primes : list Z :=
  filter is_prime (map Z.of_nat (seq 2 310)).

(** Integer cube root, one bit at a time from bit [bits - 1] down. *)
Fixpoint cube_root (bits : nat) (n r : Z) : Z :=
  match bits with
  | O => r
  | S b =>
      let r' := r + 2 ^ Z.of_nat b in
      cube_root b n (if r' * r' * r' <=? n then r' else r)
  end.

Definition K : list Z :=
  map (fun p => w32 (cube_root 36 (p * 2 ^ 96) 0)) (firstn 64 primes).

Definition H0 : list Z :=
  map (fun p => w32 (Z.sqrt (p * 2 ^ 64))) (firstn 8 primes).

(** Padding: a 1 bit, zeros up to 56 mod 64, the bit length on 8 bytes. *)
Definition be_bytes (n : nat) (x : Z) : list Z :=
  map (fun i => (Z.shiftr x (8 * Z.of_nat i)) mod 256) (rev (seq 0 n)).

Definition pad (msg : list Z) : list Z :=
  let len := Z.of_nat (List.length msg) in
  let zeros := Z.to_nat ((55 - len) mod 64) in
  (msg ++ 0x80 :: repeat 0 zeros ++ be_bytes 8 (8 * len))%list.

Fixpoint words (bs : list Z) : list Z :=
  match bs with
  | a :: b :: c :: d :: r =>
      (((a * 256 + b) * 256 + c) * 256 + d) :: words r
  | _ => []
  end.

Fixpoint blocks (n : nat) (ws : list Z) : list (list Z) :=
  match n with
  | O => []
  | S n' => firstn 16 ws :: blocks n' (skipn 16 ws)
  end.

(** Message schedule; [w] holds the words so far, the latest first. *)
Fixpoint schedule (n : nat) (w : list Z) : list Z :=
  match n with
  | O => rev w
  | S n' =>
      let x := w32 (sigma1 (nth 1 w 0) + nth 6 w 0
                    + sigma0 (nth 14 w 0) + nth 15 w 0) in
      schedule n' (x :: w)
  end.

Definition state : Type := Z * Z * Z * Z * Z * Z * Z * Z.

Definition round (st : state) (kw : Z * Z) : state :=
  let '(a, b, c, d, e, f, g, h) := st in
  let t1 := h + Sigma1 e + Ch e f g + fst kw + snd kw in
  let t2 := Sigma0 a + Maj a b c in
  (w32 (t1 + t2), a, b, c, w32 (d + t1), e, f, g).

Definition compress (st : state) (block : list Z) : state :=
  let '(a, b, c, d, e, f, g, h) := st in
  let '(a', b', c', d', e', f', g', h') :=
    fold_left round (combine K (schedule 48 (rev block))) st in
  (w32 (a + a'), w32 (b + b'), w32 (c + c'), w32 (d + d'),
   w32 (e + e'), w32 (f + f'), w32 (g + g'), w32 (h + h')).

Definition init_state : state :=
  (nth 0 H0 0, nth 1 H0 0, nth 2 H0 0, nth 3 H0 0,
   nth 4 H0 0, nth 5 H0 0, nth 6 H0 0, nth 7 H0 0).

Definition digest_words (msg : list Z) : list Z :=
  let ws := words (pad msg) in
  let '(a, b, c, d, e, f, g, h) :=
    fold_left compress (blocks (List.length ws / 16) ws) init_state in
  [a; b; c; d; e; f; g; h].

Definition hex_byte (x : Z) : string :=
  String (hex_lower (Z.to_nat (x / 16)))
         (String (hex_lower (Z.to_nat (x mod 16))) EmptyString).

Definition bytes_of_string (s : string) : list Z :=
  map (fun c => Z.of_nat (nat_of_ascii c)) (list_ascii_of_string s).

Definition hexdigest (s : string) : string :=
  String.concat ""
    (map hex_byte (flat_map (be_bytes 4) (digest_words (bytes_of_string s)))).
End SHA256.

Definition sha256_hexdigest : string -> string := SHA256.hexdigest.

(** *** ast.literal_eval and eval, on the expressions the source builds

    The source formats the text ["obj." ++ item] (resp. ["self." ++ item]);
    for an identifier [item] it parses to an attribute access on a name.
    [ast.literal_eval] accepts literal displays only and rejects every other
    node with [ValueError]; [eval] evaluates the access. *)

Inductive pyexpr : Type :=
| EConstant (v : value)
| EName (id : string)
| EAttribute (e : pyexpr) (attr : string).

Definition parse_attribute (var item : string) : pyexpr :=
  EAttribute (EName var) item.

Definition literal_eval (e : pyexpr) : result value :=
  match e with
  | EConstant v => Ok v
  | EName _ | EAttribute _ _ => Raise ValueError_malformed
  end.

Fixpoint eval (var : string) (self : value) (e : pyexpr) : result value :=
  match e with
  | EConstant v => Ok v
  | EName id => if String.eqb id var then Ok self else Raise (AttributeError id)
  | EAttribute e' a =>
      o <- eval var self e' ;;
      match getattr o a with
      | Some v => Ok v
      | None => Raise (AttributeError a)
      end
  end.

(** ** The collaborators of the module

    [woql_type.CONVERT_TYPE], [woql_type.to_woql_type], numpydoc's [ClassDoc]
    and typeguard's [check_type] live outside this module; the embedding is
    parametrised by them. *)

Record classdoc : Type := MkClassDoc {
  doc_Summary : list string;
  doc_Extended_Summary : list string;
  doc_Attributes : list (string * list string)   (* thing.name, thing.desc *)
}.

Section WoqlSchema.
Variable CONVERT_TYPE : list (pytype * string).
Variable to_woql_type : pytype -> value.
Variable ClassDoc : pyclass -> classdoc.
Variable check_type : value -> option pytype -> bool.

(** *** HashKey.idgen, LexicalKey.idgen, RandomKey.idgen

    The loop that gathers the keys has the same text in [HashKey.idgen]
    and in [LexicalKey.idgen]:
    <<
    for item in self._keys:
        if hasattr(obj, item):
            key_item = ast.literal_eval(f"obj.{item}")
        elif isinstance(obj, dict) and obj.get(item) is not None:
            key_item = obj.get(item)
        else:
            raise ValueError(f"Cannot get {item} from {obj}")
        if isinstance(key_item, tuple(CONVERT_TYPE.keys())):
            key_list.append(str(key_item))
        else:
            raise ValueError("Keys need to be datatype object")
    >> *)

Definition read_key_item (obj : value) (item : string) : result value :=
  if hasattr obj item then literal_eval (parse_attribute "obj" item)
  else if is_dict obj && negb (is_None (obj_get obj item))
       then Ok (obj_get obj item)
  else Raise (ValueError_cannot_get item).

Fixpoint key_list (keys : list string) (obj : value) : result (list string) :=
  match keys with
  | [] => Ok []
  | item :: rest =>
      key_item <- read_key_item obj item ;;
      if isinstance key_item (map fst CONVERT_TYPE) then
        tl <- key_list rest obj ;;
        Ok (py_str key_item :: tl)
      else Raise ValueError_not_datatype
  end.

(** The prefix, with the same text in the three [idgen] methods:
    <<
    if isinstance(obj, dict) and obj.get("@type") is not None:
        prefix = obj.get("@type") + "_"
    elif hasattr(obj.__class__, "_base"):
        prefix = obj.__class__._base + "_"
    elif hasattr(obj.__class__, "__name__"):
        prefix = obj.__class__.__name__ + "_"
    else:
        raise ValueError(f"Cannot determin prefix from {obj}")
    >> *)
Definition idgen_prefix (obj : value) : result string :=
  if is_dict obj && negb (is_None (obj_get obj "@type")) then
    add_str (obj_get obj "@type") "_"
  else match c_base (class_of obj) with
       | Some b => add_str b "_"
       | None =>
           if class_has_name (class_of obj)
           then Ok (c_name (class_of obj) ++ "_")%string
           else Raise ValueError_prefix
       end.

Definition HashKey_idgen (_keys : keys_spec) (obj : value) : result string :=
  kl <- key_list (iter_keys _keys) obj ;;
  prefix <- idgen_prefix obj ;;
  Ok (prefix ++ sha256_hexdigest (quote (String.concat "_" kl)))%string.

Definition LexicalKey_idgen (_keys : keys_spec) (obj : value) : result string :=
  kl <- key_list (iter_keys _keys) obj ;;
  prefix <- idgen_prefix obj ;;
  Ok (prefix ++ quote (String.concat "_" kl))%string.

(** [uuid4_hex] is the value [uuid4().hex] draws at this call. *)
Definition RandomKey_idgen (uuid4_hex : string) (obj : value) : result string :=
  prefix <- idgen_prefix obj ;;
  Ok (prefix ++ uuid4_hex)%string.

(** [key.idgen(obj)]: method lookup on the strategy object, then the call.
    [ValueHashKey] defines no [idgen], so the lookup itself raises. *)
Definition idgen (key : keystrat) (uuid4_hex : string) (obj : value)
  : result string :=
  match key with
  | HashKey ks => HashKey_idgen ks obj
  | LexicalKey ks => LexicalKey_idgen ks obj
  | RandomKey => RandomKey_idgen uuid4_hex obj
  | ValueHashKey => Raise (AttributeError "idgen")
  end.

(** The string form of the value stored under key [k] of a dictionary. *)
Definition key_str (obj : value) (k : string) : string :=
  py_str (obj_get obj k).

(** A key field a dictionary can serve: the name is no attribute of [dict]
    objects, the entry is not [None] and its type is in the table. *)
Definition dict_key_ok (obj : value) (k : string) : Prop :=
  hasattr obj k = false
  /\ is_None (obj_get obj k) = false
  /\ isinstance (obj_get obj k) (map fst CONVERT_TYPE) = true.

(** The prefix as the specification words it: for a document instance the
    class's base attribute if set, else the class name; for a dictionary,
    which has neither, the "@type" field; failure when none of these is
    available. *)
Definition spec_prefix (obj : value) : result string :=
  if is_dict obj then
    if negb (is_None (obj_get obj "@type"))
    then add_str (obj_get obj "@type") "_"
    else Raise ValueError_prefix
  else match c_base (class_of obj) with
       | Some b => add_str b "_"
       | None => Ok (c_name (class_of obj) ++ "_")%string
       end.

(** *** TerminusClass.__init__ : the abstract flag and the constructor *)

Definition resolve_abstract (c : pyclass) : bool :=
  match c_abstract c with
  | None => false
  | Some (VBool b) => b
  | Some _ => true
  end.

Definition starts_with_underscore (name : string) : bool :=
  match name with
  | String c _ => Ascii.eqb c "_"
  | EmptyString => false
  end.

(** [DocumentTemplate.__setattr__], on the attribute dictionary. *)
Definition DocumentTemplate_setattr (c : pyclass) (attrs : dict value)
    (name : string) (v : value) : result (dict value) :=
  if negb (starts_with_underscore name) && negb (is_None v) then
    if check_type v (dict_get (c_annotations c) name)
    then Ok (dict_set attrs name v)
    else Raise (TypeError_check_type name)
  else Ok (dict_set attrs name v).

(** The generated constructor [init(obj, *args, **kwargs)].  Its last
    statement binds [obj._annotations] to the class's own dictionary, so a
    read of [self._annotations] is a read of [c_annotations]; the
    attribute dictionary of the model holds the fields only, and not that
    binding. *)
Fixpoint init_fields (c : pyclass) (fields : list string)
    (kwargs attrs : dict value) : result (dict value) :=
  match fields with
  | [] => Ok attrs
  | key :: rest =>
      let v := match dict_get kwargs key with
               | Some v => v
               | None => VNone
               end in
      attrs' <- DocumentTemplate_setattr c attrs key v ;;
      init_fields c rest kwargs attrs'
  end.

Definition init (c : pyclass) (kwargs : dict value) : result value :=
  if resolve_abstract c then
    Raise (TypeError_abstract (c_name c))
  else
    attrs <- init_fields c (dict_keys (c_annotations c)) kwargs [] ;;
    Ok (VObj c attrs).

(** *** DocumentTemplate._to_dict (class level) *)

Fixpoint list_index (x : string) (l : list string) : option nat :=
  match l with
  | [] => None
  | y :: l' => if String.eqb y x then Some O
               else option_map S (list_index x l')
  end.

(** [l[1:stop]] *)
Definition slice_from_1 (l : list string) (stop : nat) : list string :=
  skipn 1 (firstn stop l).

Definition newline : string := String (ascii_of_nat 10) EmptyString.

Definition truthy_doc (d : option string) : bool :=
  match d with
  | Some (String _ _) => true
  | Some EmptyString | None => false
  end.

Definition documentation (cls : pyclass) : value :=
  let doc_obj := ClassDoc cls in
  VDict
    [ ("@comment",
       VStr (String.concat newline
               (doc_Summary doc_obj ++ doc_Extended_Summary doc_obj)));
      ("@properties",
       VDict (fold_left
                (fun acc thing =>
                   dict_set acc (fst thing)
                            (VStr (String.concat newline (snd thing))))
                (doc_Attributes doc_obj) [])) ].

Definition keys_value (ks : keys_spec) : value :=
  match ks with
  | KeysStr s => VStr s
  | KeysList l => VList (map VStr l)
  end.

Definition DocumentTemplate_to_dict (cls : pyclass) : result (dict value) :=
  let result := [("@type", VStr "Class"); ("@id", VStr (c_name cls))] in
  result <-
    (if negb (String.eqb (c_base_name cls) "DocumentTemplate") then
       match list_index "DocumentTemplate" (c_mro cls) with
       | Some i =>
           Ok (dict_set result "@inherits"
                        (VList (map VStr (slice_from_1 (c_mro cls) i))))
       | None => Raise ValueError_not_in_list
       end
     else if String.eqb (c_base_name cls) "TaggedUnion" then
       Ok (dict_set result "@type" (VStr "TaggedUnion"))
     else Ok result) ;;
  let result :=
    if truthy_doc (c_doc cls)
    then dict_set result "@documentation" (documentation cls)
    else result in
  let result :=
    match c_base cls with
    | Some b => dict_set result "@base" b
    | None => result
    end in
  let result :=
    match c_subdocument cls with
    | Some s =>
        dict_set (dict_set result "@subdocument" s)
                 "@key" (VDict [("@type", VStr "Random")])
    | None => result
    end in
  let result :=
    match c_abstract cls with
    | Some a => dict_set result "@abstract" a
    | None => result
    end in
  let result :=
    match c_key cls, c_subdocument cls with
    | Some key, None =>
        match key_keys key with
        | Some ks =>
            dict_set result "@key"
                     (VDict [("@type", VStr (at_type key));
                             ("@fields", keys_value ks)])
        | None =>
            dict_set result "@key" (VDict [("@type", VStr (at_type key))])
        end
    | _, _ => result
    end in
  Ok (fold_left (fun r kv => dict_set r (fst kv) (to_woql_type (snd kv)))
                (c_annotations cls) result).

(** *** DocumentTemplate._obj_to_dict (instance level) *)

(** [hasattr(C, "_subdocument") or
     (hasattr(C, "_key") and not hasattr(C._key, "idgen"))] *)
Definition inlined_class (c : pyclass) : bool :=
  match c_subdocument c with
  | Some _ => true
  | None =>
      match c_key c with
      | Some key => negb (has_idgen key)
      | None => false
      end
  end.

(** [hasattr(sub_item, "_obj_to_dict")]: the method of document instances. *)
Definition has_obj_to_dict (v : value) : bool :=
  match v with VObj _ _ => true | _ => false end.

(** What is stored under a field whose value [the_item] is not [None];
    [inlined] stands for [the_item._obj_to_dict()] and [mapped] for the
    list built from the elements of a list value. *)
Definition field_entry (the_item inlined : value) (mapped : list value)
  : value :=
  if inlined_class (class_of the_item) then inlined
  else match getattr the_item "_id" with
       | Some i => VDict [("@id", i); ("@type", VStr "@id")]
       | None =>
           match the_item with
           | VList _ => VList mapped
           | VEnum _ s => VStr s
           | _ => the_item
           end
       end.

(** The loop body
    <<
    if hasattr(self, item):
        the_item = eval(f"self.{item}")
        if the_item is not None:
            result[item] = ...
    >>
    given, in [entries], what the branches store for each attribute. *)
Definition add_field (self : value) (entries : dict value)
    (result : dict value) (item : string) : dict value :=
  if hasattr self item then
    match eval "self" self (parse_attribute "self" item),
          dict_get entries item with
    | Ok the_item, Some entry =>
        if is_None the_item then result else dict_set result item entry
    | _, _ => result
    end
  else result.

Fixpoint _obj_to_dict (self : value) : value :=
  match self with
  | VObj c attrs =>
      let fix entries (l : list (string * value)) : dict value :=
        match l with
        | [] => []
        | (k, the_item) :: l' =>
            let mapped :=
              match the_item with
              | VList subs =>
                  (fix map_subs (subs : list value) : list value :=
                     match subs with
                     | [] => []
                     | sub_item :: subs' =>
                         (if has_obj_to_dict sub_item
                          then _obj_to_dict sub_item
                          else sub_item) :: map_subs subs'
                     end) subs
              | _ => []
              end in
            (k, field_entry the_item (_obj_to_dict the_item) mapped)
              :: entries l'
        end in
      let result := [("@type", VStr (c_name c))] in
      let result :=
        match dict_get attrs "_id" with
        | Some i => dict_set result "@id" i
        | None => result
        end in
      VDict (fold_left (add_field self (entries attrs))
                       (dict_keys (c_annotations c)) result)
  | _ => self
  end.

(** The dictionary [_obj_to_dict] returns, as a dictionary. *)
Definition to_document (self : value) : dict value :=
  match _obj_to_dict self with
  | VDict d => d
  | _ => []
  end.

(** The pieces of [_obj_to_dict] by name, for stating its equation. *)
Definition map_subs (subs : list value) : list value :=
  map (fun sub_item => if has_obj_to_dict sub_item
                       then _obj_to_dict sub_item else sub_item) subs.

Definition entry_of (the_item : value) : value :=
  field_entry the_item (_obj_to_dict the_item)
              (match the_item with VList subs => map_subs subs | _ => [] end).

Definition entries_of (attrs : dict value) : dict value :=
  map (fun kv => (fst kv, entry_of (snd kv))) attrs.

Definition initial_result (c : pyclass) (attrs : dict value) : dict value :=
  match dict_get attrs "_id" with
  | Some i => dict_set [("@type", VStr (c_name c))] "@id" i
  | None => [("@type", VStr (c_name c))]
  end.

(** What the loop stores under [item], if anything. *)
Definition emitted (self : value) (item : string) : option value :=
  match getattr self item with
  | Some the_item => if is_None the_item then None
                     else Some (entry_of the_item)
  | None => None
  end.

(** Keys the serialisers reserve; a declared field is an identifier and
    never starts with ["@"]. *)
Definition reserved_key (k : string) : bool :=
  match k with
  | String c _ => Ascii.eqb c "@"
  | EmptyString => false
  end.
End WoqlSchema.

(** ** Scenario data

    One instance of the collaborators and a few class declarations, as the
    metaclass leaves them. *)

Definition CONVERT_TYPE_xsd : list (pytype * string) :=
  [ (TyStr, "xsd:string"); (TyBool, "xsd:boolean");
    (TyFloat, "xsd:double"); (TyInt, "xsd:integer") ].

Definition to_woql_type_xsd (t : pytype) : value :=
  match find (fun p => pytype_eqb (fst p) t) CONVERT_TYPE_xsd with
  | Some p => VStr (snd p)
  | None => VStr "<class>"
  end.

Definition ClassDoc_empty (_ : pyclass) : classdoc := MkClassDoc [] [] [].

Definition check_type_simple (v : value) (t : option pytype) : bool :=
  match t with
  | Some ty => issubclass (type_of v) ty
  | None => true
  end.

(** [class <name>(DocumentTemplate)] with a key strategy and own fields. *)
Definition document_class (name : string) (key : keystrat)
    (fields : annotations) : pyclass :=
  {| c_name := name; c_base_name := "DocumentTemplate";
     c_mro := [name; "DocumentTemplate"; "object"]; c_doc := None;
     c_base := None; c_subdocument := None; c_abstract := None;
     c_key := Some key; c_annotations := fields |}.

(** [class Person(DocumentTemplate): _key = LexicalKey(["name"])] *)
Definition Person : pyclass :=
  document_class "Person" (LexicalKey (KeysList ["name"]))
                 [("name", TyStr); ("age", TyInt)].

Definition PersonHashed : pyclass :=
  document_class "Person" (HashKey (KeysList ["name"]))
                 [("name", TyStr); ("age", TyInt)].

Definition ann_kwargs : dict value :=
  [("name", VStr "Ann Lee"); ("age", VInt 30)].

(** What [Person(name="Ann Lee", age=30)] builds. *)
Definition ann (c : pyclass) : value := VObj c ann_kwargs.

Definition ann_dict : value :=
  VDict [("@type", VStr "Person"); ("name", VStr "Ann Lee"); ("age", VInt 30)].

(** [class Shape(TaggedUnion)], [TaggedUnion] being declared in the module
    as [class TaggedUnion(DocumentTemplate): pass]. *)
Definition Shape : pyclass :=
  {| c_name := "Shape"; c_base_name := "TaggedUnion";
     c_mro := ["Shape"; "TaggedUnion"; "DocumentTemplate"; "object"];
     c_doc := None; c_base := None; c_subdocument := None;
     c_abstract := None; c_key := Some RandomKey;
     c_annotations := [("circle", TyInt); ("square", TyInt)] |}.

(** [class Note(DocumentTemplate): _key = ValueHashKey()] *)
Definition Note : pyclass :=
  document_class "Note" ValueHashKey [("text", TyStr)].

(** [class Address(DocumentTemplate): _subdocument = <flag>] *)
Definition Address (flag : value) : pyclass :=
  {| c_name := "Address"; c_base_name := "DocumentTemplate";
     c_mro := ["Address"; "DocumentTemplate"; "object"]; c_doc := None;
     c_base := None; c_subdocument := Some flag; c_abstract := None;
     c_key := Some (LexicalKey (KeysList ["street"]));
     c_annotations := [("street", TyStr)] |}.

Definition Holder : pyclass :=
  document_class "Holder" RandomKey
    [ ("note", TyDocument "Note"); ("home", TyDocument "Address");
      ("friend", TyDocument "Person"); ("nick", TyOptional TyStr) ].

Definition a_note : value :=
  VObj Note [("text", VStr "hi"); ("_id", VStr "Note_1")].

Definition a_home (flag : value) : value :=
  VObj (Address flag) [("street", VStr "Main"); ("_id", VStr "Address_Main")].

Definition a_friend : value :=
  VObj Person [ ("name", VStr "Ann Lee"); ("age", VInt 30);
                ("_id", VStr "Person_Ann%20Lee") ].

Definition holder_attrs (flag : value) : dict value :=
  [ ("note", a_note); ("home", a_home flag);
    ("friend", a_friend); ("nick", VNone) ].

Definition holder (flag : value) : value := VObj Holder (holder_attrs flag).

(** ** WOQLSchema: a container of class objects

    Class objects and schema objects live in a store and are referred to by
    their identity, since [WOQLSchema.copy] is about which objects two
    containers share. *)

Module Store.
Import stdpp.base stdpp.option stdpp.gmap.

Definition addr : Type := nat.

Record store : Type := MkStore {
  st_classes : gmap addr pyclass;        (* the class objects *)
  st_schemas : gmap addr (gset addr)     (* WOQLSchema objects: self.object *)
}.

(** [WOQLSchema()]: [self.object = set()] on a new object. *)
Definition WOQLSchema_init (st : store) : addr * store :=
  let self := fresh (dom (st_schemas st)) in
  (self, MkStore (st_classes st) (<[self := ∅]> (st_schemas st))).

(** [self.object.add(obj)] *)
Definition add_obj (st : store) (self obj : addr) : option store :=
  objects ← st_schemas st !! self;
  Some (MkStore (st_classes st)
                (<[self := {[obj]} ∪ objects]> (st_schemas st))).

(** [return self.object] *)
Definition all_obj (st : store) (self : addr) : option (gset addr) :=
  st_schemas st !! self.

(** [copy.deepcopy] on a class: the [copy] module treats type objects
    (instances of [type], whatever the metaclass) as atomic and returns
    the very same object. *)
Definition deepcopy_class (cls : addr) : addr := cls.

(** [deepcopy(self)]: a new [WOQLSchema] whose [object] attribute is a new
    set holding the deep copies of the elements. *)
Definition WOQLSchema_copy (st : store) (self : addr)
  : option (addr * store) :=
  objects ← st_schemas st !! self;
  let new := fresh (dom (st_schemas st)) in
  Some (new, MkStore (st_classes st)
                     (<[new := set_map deepcopy_class objects]>
                        (st_schemas st))).

(** An assignment to an attribute of the class object at [cls]. *)
Definition class_setattr (st : store) (cls : addr)
    (update : pyclass -> pyclass) : store :=
  MkStore (alter update cls (st_classes st)) (st_schemas st).

(** The metadata of the classes registered in a container. *)
Definition registered (st : store) (self : addr)
  : option (gmap addr pyclass) :=
  objects ← st_schemas st !! self;
  Some (filter (fun kv => kv.1 ∈ objects) (st_classes st)).

(** The duplication as the specification words it: a deep, independent
    copy of the container and of all contained class metadata. *)
Definition spec_independent_copy (st : store) (self : addr) : Prop :=
  forall new st' cls update,
    WOQLSchema_copy st self = Some (new, st') ->
    (exists objects, all_obj st' new = Some objects /\ cls ∈ objects) ->
    registered (class_setattr st' cls update) self = registered st' self.

(** [cls._base = b] *)
Definition set_base (b : value) (c : pyclass) : pyclass :=
  {| c_name := c_name c; c_base_name := c_base_name c; c_mro := c_mro c;
     c_doc := c_doc c; c_base := Some b;
     c_subdocument := c_subdocument c; c_abstract := c_abstract c;
     c_key := c_key c; c_annotations := c_annotations c |}.

(** A store with the class [Person] registered in one container. *)
Definition person_store : store :=
  MkStore {[ 0%nat := Person ]} {[ 0%nat := {[ 0%nat ]} ]}.
End Store.

(** [class Team(DocumentTemplate)] with a string, a list and an
    enumeration field, and an instance that has been given an identifier. *)
Definition Team : pyclass :=
  document_class "Team" RandomKey
    [ ("title", TyStr); ("members", TyListOf (TyDocument "Person"));
      ("level", TyEnum "Level") ].

Definition team_attrs : dict value :=
  [ ("title", VStr "Core"); ("members", VList [a_friend; VStr "guest"]);
    ("level", VEnum "Level" "high"); ("_id", VStr "Team_1") ].

Definition team : value := VObj Team team_attrs.

(** ** Names for what the constructor and the serialisers compute *)

(** The value the generated constructor assigns to field [key]:
    [kwargs[key]] when the keyword is given, [None] otherwise. *)
Definition field_arg (kwargs : dict value) (key : string) : value :=
  match dict_get kwargs key with
  | Some v => v
  | None => VNone
  end.

(** Whether the assignment of [v] to [key] gets past [__setattr__]: names
    that start with an underscore and the value [None] are not checked. *)
Definition field_accepted (check_type : value -> option pytype -> bool)
    (c : pyclass) (key : string) (v : value) : bool :=
  starts_with_underscore key || is_None v
  || check_type v (dict_get (c_annotations c) key).

(** Values that are neither instances, lists nor enumeration members. *)
Definition is_plain (v : value) : bool :=
  match v with
  | VBool _ | VInt _ | VStr _ | VDict _ => true
  | VNone | VList _ | VEnum _ _ | VObj _ _ => false
  end.

(** Whether the loop of [_obj_to_dict] stores an entry for [item]. *)
Definition is_emitted (self : value) (item : string) : bool :=
  match emitted self item with Some _ => true | None => false end.

(** * Properties *)

(** ** Dictionaries *)

Section DictFacts.
Variable V : Type.
Implicit Types (d : dict V) (k : string) (v : V).

Lemma dict_get_set_eq d k v : dict_get (dict_set d k v) k = Some v.
Proof.
  induction d as [|[k' v'] d IH]; simpl.
  - now rewrite String.eqb_refl.
  - destruct (String.eqb k' k) eqn:E; simpl; rewrite E; auto.
Qed.

Lemma dict_get_set_neq d k k' v :
  k <> k' -> dict_get (dict_set d k v) k' = dict_get d k'.
Proof.
  intros Hne. induction d as [|[k0 v0] d IH]; simpl.
  - apply String.eqb_neq in Hne. now rewrite Hne.
  - destruct (String.eqb k0 k) eqn:E; simpl.
    + apply String.eqb_eq in E; subst k0.
      apply String.eqb_neq in Hne. now rewrite Hne.
    + now rewrite IH.
Qed.

Lemma dict_get_in_keys d k v : dict_get d k = Some v -> In k (dict_keys d).
Proof.
  induction d as [|[k' v'] d IH]; simpl; [discriminate|].
  destruct (String.eqb k' k) eqn:E; intros H.
  - left. now apply String.eqb_eq.
  - right. auto.
Qed.

Lemma dict_get_not_in_keys d k : dict_get d k = None -> ~ In k (dict_keys d).
Proof.
  induction d as [|[k' v'] d IH]; simpl; [tauto|].
  destruct (String.eqb k' k) eqn:E; [discriminate|].
  intros H [Heq|Hin]; [|now apply IH].
  subst k'. now rewrite String.eqb_refl in E.
Qed.

Lemma dict_keys_set_in d k v k' :
  In k' (dict_keys (dict_set d k v)) <-> k' = k \/ In k' (dict_keys d).
Proof.
  induction d as [|[k0 v0] d IH]; simpl.
  - intuition.
  - destruct (String.eqb k0 k) eqn:E; simpl.
    + apply String.eqb_eq in E; subst k0. intuition.
    + rewrite IH. intuition.
Qed.

Lemma dict_set_NoDup d k v :
  NoDup (dict_keys d) -> NoDup (dict_keys (dict_set d k v)).
Proof.
  induction d as [|[k0 v0] d IH]; simpl; intros Hnd.
  - constructor; [intros []|constructor].
  - inversion Hnd as [|? ? Hnotin Hnd']; subst.
    destruct (String.eqb k0 k) eqn:E; simpl.
    + now constructor.
    + constructor; [|now apply IH].
      rewrite dict_keys_set_in. intros [Heq|Hin]; [|tauto].
      subst k0. now rewrite String.eqb_refl in E.
Qed.

Lemma count_not_in (l : list string) k :
  ~ In k l -> List.length (filter (String.eqb k) l) = 0%nat.
Proof.
  induction l as [|k0 l IH]; simpl; auto.
  intros Hn. destruct (String.eqb k k0) eqn:E.
  - apply String.eqb_eq in E. subst k0. tauto.
  - apply IH. tauto.
Qed.

Lemma count_NoDup_in (l : list string) k :
  NoDup l -> In k l -> List.length (filter (String.eqb k) l) = 1%nat.
Proof.
  induction l as [|k0 l IH]; simpl.
  - tauto.
  - intros Hnd Hin. inversion Hnd as [|? ? Hnotin Hnd']; subst.
    destruct (String.eqb k k0) eqn:E; simpl.
    + apply String.eqb_eq in E; subst k0.
      f_equal. now apply count_not_in.
    + apply IH; auto. destruct Hin as [Heq|]; auto.
      subst k0. now rewrite String.eqb_refl in E.
Qed.

Lemma dict_count_not_in d k : ~ In k (dict_keys d) -> dict_count d k = 0%nat.
Proof. apply count_not_in. Qed.

Lemma dict_count_NoDup_in d k :
  NoDup (dict_keys d) -> In k (dict_keys d) -> dict_count d k = 1%nat.
Proof. apply count_NoDup_in. Qed.
End DictFacts.

(** ** TerminusClass: merged annotations *)

Lemma dict_get_app (V : Type) (a b : dict V) k :
  dict_get (a ++ b) k =
  match dict_get a k with Some v => Some v | None => dict_get b k end.
Proof.
  induction a as [|[k0 v0] a IH]; simpl; auto.
  destruct (String.eqb k0 k); auto.
Qed.

Lemma dict_get_update (V : Type) (other d : dict V) k :
  dict_get (dict_update d other) k =
  match dict_get (rev other) k with
  | Some v => Some v
  | None => dict_get d k
  end.
Proof.
  unfold dict_update. revert d.
  induction other as [|[k0 v0] other IH]; intros d; simpl; auto.
  rewrite IH, dict_get_app. simpl.
  destruct (dict_get (rev other) k); auto.
  destruct (String.eqb k0 k) eqn:E.
  - apply String.eqb_eq in E; subst. apply dict_get_set_eq.
  - apply dict_get_set_neq. now apply String.eqb_neq.
Qed.

Lemma dict_get_rev_NoDup (V : Type) (d : dict V) k :
  NoDup (dict_keys d) -> dict_get (rev d) k = dict_get d k.
Proof.
  induction d as [|[k0 v0] d IH]; simpl; auto.
  intros Hnd. inversion Hnd as [|? ? Hnotin Hnd']; subst.
  rewrite dict_get_app, IH by assumption. simpl.
  destruct (String.eqb k0 k) eqn:E.
  - apply String.eqb_eq in E; subst k0.
    destruct (dict_get d k) eqn:G; auto.
    apply dict_get_in_keys in G. tauto.
  - destruct (dict_get d k); auto.
Qed.

(** Whatever the class body declares, a field that the (last) base declares
    keeps the base's type in the merged annotations. *)
Lemma base_annotation_overrides
    (own : option annotations) (bases : list (option annotations))
    (parent : annotations) (k : string) (t : pytype) :
  NoDup (dict_keys parent) ->
  dict_get parent k = Some t ->
  dict_get (TerminusClass_annotations own (bases ++ [Some parent])) k = Some t.
Proof.
  intros Hnd Hget. unfold TerminusClass_annotations.
  rewrite fold_left_app. simpl.
  rewrite dict_get_update, dict_get_rev_NoDup, Hget by assumption.
  reflexivity.
Qed.

(** C1 (as the code behaves): class [Employee(Person)] declares [name: int]
    while [Person] declares [name: str]; [update] overwrites the entry, so the
    merged annotations of [Employee] give [name] the ancestor's type, where
    the merge described by the specification keeps the class's own. *)
Theorem C1_ancestor_annotation_replaces_own :
  let own := [("name", TyInt); ("salary", TyInt)] in
  let person := [("name", TyStr); ("age", TyInt)] in
  TerminusClass_annotations (Some own) [Some person]
    = [("name", TyStr); ("salary", TyInt); ("age", TyInt)]
  /\ dict_get (TerminusClass_annotations (Some own) [Some person]) "name"
     = Some TyStr
  /\ dict_get (spec_merged_annotations (Some own) [Some person]) "name"
     = Some TyInt.
Proof. repeat split. Qed.

(** ** Identifier strategies *)

Section IdgenFacts.
Variable CONVERT_TYPE : list (pytype * string).

Lemma read_key_item_instance c attrs item :
  is_ok (read_key_item (VObj c attrs) item) = false.
Proof.
  unfold read_key_item. destruct (hasattr (VObj c attrs) item); reflexivity.
Qed.

(** On a document instance the gathering loop never gets past its first
    key: either the attribute is missing, or [ast.literal_eval] rejects
    the attribute access. *)
Lemma key_list_instance_fails c attrs item rest :
  is_ok (key_list CONVERT_TYPE (item :: rest) (VObj c attrs)) = false.
Proof.
  simpl. pose proof (read_key_item_instance c attrs item) as H.
  destruct (read_key_item (VObj c attrs) item); [discriminate|reflexivity].
Qed.

Lemma idgen_instance_fails c attrs item rest :
  is_ok (HashKey_idgen CONVERT_TYPE (KeysList (item :: rest)) (VObj c attrs))
    = false
  /\ is_ok (LexicalKey_idgen CONVERT_TYPE (KeysList (item :: rest))
                             (VObj c attrs)) = false.
Proof.
  unfold HashKey_idgen, LexicalKey_idgen, iter_keys.
  pose proof (key_list_instance_fails c attrs item rest) as H.
  destruct (key_list CONVERT_TYPE (item :: rest) (VObj c attrs));
    [discriminate|split; reflexivity].
Qed.

Lemma key_list_dict d keys :
  Forall (dict_key_ok CONVERT_TYPE (VDict d)) keys ->
  key_list CONVERT_TYPE keys (VDict d) = Ok (map (key_str (VDict d)) keys).
Proof.
  induction 1 as [|k keys [Hattr [Hnone Hty]] _ IH]; [reflexivity|].
  cbn [key_list map]. unfold read_key_item.
  rewrite Hattr. cbn [is_dict]. rewrite Hnone.
  cbn [andb negb bind]. rewrite Hty, IH. reflexivity.
Qed.

Lemma idgen_prefix_never_fails_on_prefix obj :
  idgen_prefix obj <> Raise ValueError_prefix.
Proof.
  unfold idgen_prefix.
  destruct (is_dict obj && negb (is_None (obj_get obj "@type"))).
  - destruct (obj_get obj "@type"); simpl; discriminate.
  - destruct (c_base (class_of obj)) as [b|].
    + destruct b; simpl; discriminate.
    + simpl. discriminate.
Qed.

Lemma idgen_starts_with_prefix key uuid4_hex obj id :
  idgen CONVERT_TYPE key uuid4_hex obj = Ok id ->
  exists prefix rest,
    idgen_prefix obj = Ok prefix /\ id = (prefix ++ rest)%string.
Proof.
  destruct key as [ks|ks| |]; simpl;
    unfold HashKey_idgen, LexicalKey_idgen, RandomKey_idgen.
  - destruct (key_list CONVERT_TYPE (iter_keys ks) obj); simpl; [|discriminate].
    destruct (idgen_prefix obj) as [p|]; simpl; [|discriminate].
    intros [= <-]. eauto.
  - destruct (key_list CONVERT_TYPE (iter_keys ks) obj); simpl; [|discriminate].
    destruct (idgen_prefix obj) as [p|]; simpl; [|discriminate].
    intros [= <-]. eauto.
  - discriminate.
  - destruct (idgen_prefix obj) as [p|]; simpl; [|discriminate].
    intros [= <-]. eauto.
Qed.
End IdgenFacts.

(** C2 (as the code behaves): [Person(name="Ann Lee", age=30)] is built by
    the generated constructor, and [LexicalKey(["name"]).idgen] on it does
    not return ['Person_Ann%20Lee']: [ast.literal_eval("obj.name")] raises
    [ValueError].  The same fields held in a dictionary tagged
    ["@type": "Person"] do give that identifier. *)
Theorem C2_lexical_idgen_raises_on_instance :
  init check_type_simple Person ann_kwargs = Ok (ann Person)
  /\ c_key Person = Some (LexicalKey (KeysList ["name"]))
  /\ idgen CONVERT_TYPE_xsd (LexicalKey (KeysList ["name"])) "" (ann Person)
     = Raise ValueError_malformed
  /\ idgen CONVERT_TYPE_xsd (LexicalKey (KeysList ["name"])) "" ann_dict
     = Ok "Person_Ann%20Lee".
Proof. repeat split. Qed.

(** C3 (amended): on a dictionary whose configured key fields are all
    present, not [None], of a type in the conversion table and not named as
    an attribute of [dict] objects, [HashKey.idgen] returns the prefix
    followed by the hexadecimal SHA-256 digest of the percent-encoded
    ["_"]-join of the keys' string forms, in the configured order; a
    reordering of the keys yields the same identifier whenever it yields the
    same joined string. *)
Theorem C3_hash_idgen_on_dict
    (CONVERT_TYPE : list (pytype * string))
    (d : dict value) (keys : list string) :
  Forall (dict_key_ok CONVERT_TYPE (VDict d)) keys ->
  HashKey_idgen CONVERT_TYPE (KeysList keys) (VDict d)
    = bind (idgen_prefix (VDict d))
        (fun prefix =>
           Ok (prefix ++ sha256_hexdigest
                 (quote (String.concat "_" (map (key_str (VDict d)) keys)))
              )%string)
  /\ forall keys',
       Permutation keys keys' ->
       String.concat "_" (map (key_str (VDict d)) keys')
         = String.concat "_" (map (key_str (VDict d)) keys) ->
       HashKey_idgen CONVERT_TYPE (KeysList keys') (VDict d)
         = HashKey_idgen CONVERT_TYPE (KeysList keys) (VDict d).
Proof.
  intros Hkeys.
  assert (Hid : forall ks, Forall (dict_key_ok CONVERT_TYPE (VDict d)) ks ->
            HashKey_idgen CONVERT_TYPE (KeysList ks) (VDict d)
            = bind (idgen_prefix (VDict d))
                (fun prefix =>
                   Ok (prefix ++ sha256_hexdigest
                         (quote (String.concat "_" (map (key_str (VDict d)) ks)))
                      )%string)).
  { intros ks Hks. unfold HashKey_idgen. cbn [iter_keys].
    rewrite (key_list_dict Hks). reflexivity. }
  split; [now apply Hid|].
  intros keys' Hperm Hjoin.
  rewrite (Hid keys Hkeys), (Hid keys').
  - now rewrite Hjoin.
  - apply Forall_forall. intros k Hin.
    rewrite Forall_forall in Hkeys. apply Hkeys.
    apply Permutation_sym in Hperm. eapply Permutation_in; eauto.
Qed.

Lemma C3_hash_idgen_on_dict_witness :
  HashKey_idgen CONVERT_TYPE_xsd (KeysList ["name"]) ann_dict
  = Ok "Person_1dda5dd8b0be45fc67353f0f87818a6235f064da51e1d7ad5a042fb0dcba3159".
Proof.
  refine (eq_trans
            (proj1 (@C3_hash_idgen_on_dict CONVERT_TYPE_xsd _ ["name"] _)) _).
  - repeat constructor.
  - vm_compute. reflexivity.
Defined.

(** C3 (counterexample): the key field [name] is present with a string
    value, yet [HashKey.idgen] raises on the document instance; and on a
    dictionary whose two key fields hold equal values, reordering the
    configured keys leaves the identifier unchanged. *)
Lemma C3_counterexample :
  let d := VDict [("@type", VStr "Pair"); ("a", VInt 1); ("b", VInt 1)] in
  idgen CONVERT_TYPE_xsd (HashKey (KeysList ["name"])) "" (ann PersonHashed)
    = Raise ValueError_malformed
  /\ is_ok (idgen CONVERT_TYPE_xsd (HashKey (KeysList ["a"; "b"])) "" d) = true
  /\ idgen CONVERT_TYPE_xsd (HashKey (KeysList ["b"; "a"])) "" d
     = idgen CONVERT_TYPE_xsd (HashKey (KeysList ["a"; "b"])) "" d.
Proof. vm_compute. repeat split. Qed.

(** With distinct key values the order of the keys does show. *)
Example hash_key_order_matters :
  let d := VDict [("@type", VStr "Pair"); ("a", VInt 1); ("b", VInt 2)] in
  HashKey_idgen CONVERT_TYPE_xsd (KeysList ["a"; "b"]) d
  <> HashKey_idgen CONVERT_TYPE_xsd (KeysList ["b"; "a"]) d.
Proof. vm_compute. discriminate. Qed.

(** C4 (as the code behaves): on every document instance and on every
    dictionary that carries an ["@type"] the code resolves the prefix as
    the specification says.  A dictionary without ["@type"] has no base,
    no document class and no tag, yet the three strategies do not fail on
    it: the test [hasattr(obj.__class__, "__name__")] holds for every class,
    [dict] included, so the prefix is ["dict_"] and the final
    [raise ValueError] is never reached. *)
Theorem C4_untagged_dictionary_gets_dict_prefix :
  (forall obj,
     idgen_prefix obj
     = if is_dict obj && is_None (obj_get obj "@type")
       then Ok "dict_" else spec_prefix obj)
  /\ (forall obj, idgen_prefix obj <> Raise ValueError_prefix)
  /\ spec_prefix (VDict [("name", VStr "Ann Lee")]) = Raise ValueError_prefix
  /\ idgen CONVERT_TYPE_xsd (LexicalKey (KeysList ["name"])) ""
           (VDict [("name", VStr "Ann Lee")]) = Ok "dict_Ann%20Lee"
  /\ idgen CONVERT_TYPE_xsd RandomKey "0f8fad5bd9cb469fa16570867728950e"
           (VDict [("name", VStr "Ann Lee")])
     = Ok "dict_0f8fad5bd9cb469fa16570867728950e"
  /\ idgen CONVERT_TYPE_xsd (HashKey (KeysList ["name"])) ""
           (VDict [("name", VStr "Ann Lee")])
     = Ok "dict_1dda5dd8b0be45fc67353f0f87818a6235f064da51e1d7ad5a042fb0dcba3159".
Proof.
  split; [|split; [exact idgen_prefix_never_fails_on_prefix|]].
  - intros obj. unfold idgen_prefix, spec_prefix.
    destruct obj; cbn [is_dict andb]; try reflexivity.
    destruct (is_None (obj_get (VDict d) "@type")); reflexivity.
  - repeat split; vm_compute; reflexivity.
Qed.

(** C9: [ValueHashKey] has no [idgen]; invoking it fails on every object,
    with the [AttributeError] of the missing method, and it is the only
    strategy without the operation. *)
Theorem C9_value_hash_idgen_unimplemented
    (CONVERT_TYPE : list (pytype * string))
    (uuid4_hex : string) (obj : value) :
  idgen CONVERT_TYPE ValueHashKey uuid4_hex obj = Raise (AttributeError "idgen")
  /\ has_idgen ValueHashKey = false
  /\ (forall key, has_idgen key = false <-> key = ValueHashKey).
Proof.
  repeat split; try (intros ->; reflexivity).
  destruct key; try discriminate; reflexivity.
Qed.

(** ** Instance serialisation *)

Lemma dict_get_entries_of attrs k :
  dict_get (entries_of attrs) k = option_map entry_of (dict_get attrs k).
Proof.
  induction attrs as [|[k0 v0] attrs IH]; simpl; auto.
  destruct (String.eqb k0 k); auto.
Qed.

(** The equation of [_obj_to_dict] on an instance. *)
Lemma _obj_to_dict_eq c attrs :
  _obj_to_dict (VObj c attrs)
  = VDict (fold_left (add_field (VObj c attrs) (entries_of attrs))
                     (dict_keys (c_annotations c)) (initial_result c attrs)).
Proof.
  cbn [_obj_to_dict]. f_equal.
  replace (initial_result c attrs) with
    (match dict_get attrs "_id" with
     | Some i => dict_set [("@type", VStr (c_name c))] "@id" i
     | None => [("@type", VStr (c_name c))]
     end) by reflexivity.
  f_equal. f_equal.
  induction attrs as [|[k the_item] attrs IH]; [reflexivity|].
  cbn [entries_of map fst snd]. f_equal. exact IH.
Qed.

Lemma add_field_emitted c attrs result item :
  add_field (VObj c attrs) (entries_of attrs) result item
  = match emitted (VObj c attrs) item with
    | Some e => dict_set result item e
    | None => result
    end.
Proof.
  unfold add_field, emitted, hasattr, dict_has, parse_attribute.
  cbn [eval String.eqb Ascii.eqb Bool.eqb bind getattr].
  rewrite dict_get_entries_of.
  destruct (dict_get attrs item) as [v|]; cbn [option_map]; auto.
  now destruct (is_None v).
Qed.

Section FieldLoop.
Variables (c : pyclass) (attrs : dict value).
Let self := VObj c attrs.
Let step := add_field self (entries_of attrs).

Lemma loop_keeps result keys k e :
  emitted self k = Some e ->
  dict_get result k = Some e ->
  dict_get (fold_left step keys result) k = Some e.
Proof.
  intros He. revert result.
  induction keys as [|k0 keys IH]; intros result Hget; simpl; auto.
  apply IH. unfold step, self. rewrite add_field_emitted.
  destruct (String.eqb k0 k) eqn:E.
  - apply String.eqb_eq in E; subst k0. fold self. rewrite He.
    apply dict_get_set_eq.
  - apply String.eqb_neq in E.
    destruct (emitted (VObj c attrs) k0); auto.
    now rewrite dict_get_set_neq.
Qed.

Lemma loop_stores result keys k e :
  In k keys ->
  emitted self k = Some e ->
  dict_get (fold_left step keys result) k = Some e.
Proof.
  intros Hin He. revert result.
  induction keys as [|k0 keys IH]; intros result; [destruct Hin|].
  simpl. destruct (String.eqb k0 k) eqn:E.
  - apply String.eqb_eq in E; subst k0. apply loop_keeps; auto.
    unfold step, self. rewrite add_field_emitted. fold self. rewrite He.
    apply dict_get_set_eq.
  - apply IH. destruct Hin as [Heq|Hin]; auto.
    subst k0. now rewrite String.eqb_refl in E.
Qed.

Lemma loop_skips result keys k :
  emitted self k = None \/ ~ In k keys ->
  dict_get (fold_left step keys result) k = dict_get result k.
Proof.
  intros Hk. revert result.
  induction keys as [|k0 keys IH]; intros result; simpl; auto.
  rewrite IH by (simpl in Hk; tauto).
  unfold step, self. rewrite add_field_emitted.
  destruct (String.eqb k0 k) eqn:E.
  - apply String.eqb_eq in E; subst k0.
    destruct Hk as [Hk|Hk]; [fold self; now rewrite Hk|].
    simpl in Hk. tauto.
  - apply String.eqb_neq in E.
    destruct (emitted (VObj c attrs) k0); auto.
    now rewrite dict_get_set_neq.
Qed.

Lemma loop_NoDup result keys :
  NoDup (dict_keys result) ->
  NoDup (dict_keys (fold_left step keys result)).
Proof.
  revert result.
  induction keys as [|k0 keys IH]; intros result Hnd; simpl; auto.
  apply IH. unfold step, self. rewrite add_field_emitted.
  destruct (emitted (VObj c attrs) k0); auto.
  now apply dict_set_NoDup.
Qed.
End FieldLoop.

Lemma initial_result_NoDup c attrs : NoDup (dict_keys (initial_result c attrs)).
Proof.
  unfold initial_result. destruct (dict_get attrs "_id").
  - apply dict_set_NoDup. simpl. constructor; [intros []|constructor].
  - simpl. constructor; [intros []|constructor].
Qed.

Lemma initial_result_reserved c attrs k :
  reserved_key k = false -> dict_get (initial_result c attrs) k = None.
Proof.
  intros Hk. unfold initial_result.
  assert (Ht : "@type" <> k) by (intros <-; discriminate).
  assert (Hi : "@id" <> k) by (intros <-; discriminate).
  assert (H0 : dict_get [("@type", VStr (c_name c))] k = None).
  { cbn [dict_get]. apply String.eqb_neq in Ht. now rewrite Ht. }
  destruct (dict_get attrs "_id");
    [rewrite dict_get_set_neq by exact Hi|]; exact H0.
Qed.

(** A field that holds a value other than [None] is stored under its name,
    as the entry the branches compute for that value. *)
Lemma to_document_field c attrs item the_item :
  In item (dict_keys (c_annotations c)) ->
  dict_get attrs item = Some the_item ->
  is_None the_item = false ->
  dict_get (to_document (VObj c attrs)) item = Some (entry_of the_item).
Proof.
  intros Hin Hget Hnone. unfold to_document. rewrite _obj_to_dict_eq.
  apply loop_stores; auto.
  unfold emitted, getattr. now rewrite Hget, Hnone.
Qed.

Lemma dict_set_head (V : Type) (d : dict V) k v :
  d <> [] -> hd_error (dict_keys (dict_set d k v)) = hd_error (dict_keys d).
Proof.
  destruct d as [|[k0 v0] d]; [congruence|]. intros _. simpl.
  now destruct (String.eqb k0 k).
Qed.

(** The serialisation of an instance opens with its ["@type"] entry, so it
    is never a reference dictionary, which opens with ["@id"]. *)
Lemma to_document_head c attrs :
  hd_error (dict_keys (to_document (VObj c attrs))) = Some "@type".
Proof.
  unfold to_document. rewrite _obj_to_dict_eq.
  assert (H0 : initial_result c attrs <> []
               /\ hd_error (dict_keys (initial_result c attrs)) = Some "@type").
  { unfold initial_result. destruct (dict_get attrs "_id"); simpl; split;
      congruence. }
  revert H0. generalize (initial_result c attrs).
  induction (dict_keys (c_annotations c)) as [|k0 keys IH];
    intros result [Hne Hhd]; simpl; auto.
  apply IH. rewrite add_field_emitted.
  destruct (emitted (VObj c attrs) k0); auto. split.
  - destruct result as [|[k1 v1] result]; [congruence|]. simpl.
    destruct (String.eqb k1 k0); discriminate.
  - now rewrite dict_set_head.
Qed.

Lemma serialisation_is_no_reference c attrs i :
  _obj_to_dict (VObj c attrs) <> VDict [("@id", i); ("@type", VStr "@id")].
Proof.
  intros Heq. pose proof (to_document_head c attrs) as H.
  unfold to_document in H. rewrite Heq in H. discriminate.
Qed.

(** C6 (amended): a field value whose class is a sub-document is stored as
    its own serialisation, whether or not it carries an identifier; a field
    value whose class is neither a sub-document nor keyed by a strategy
    without [idgen], and which carries an identifier, is stored as the
    reference [{"@id": <identifier>, "@type": "@id"}]. *)
Theorem C6_subdocument_inlined_else_reference
    (c : pyclass) (attrs : dict value) (item : string) (the_item : value) :
  In item (dict_keys (c_annotations c)) ->
  dict_get attrs item = Some the_item ->
  is_None the_item = false ->
  (forall flag, c_subdocument (class_of the_item) = Some flag ->
     dict_get (to_document (VObj c attrs)) item
       = Some (_obj_to_dict the_item)
     /\ forall i, _obj_to_dict the_item
                  <> VDict [("@id", i); ("@type", VStr "@id")])
  /\ (forall i, inlined_class (class_of the_item) = false ->
        getattr the_item "_id" = Some i ->
        dict_get (to_document (VObj c attrs)) item
          = Some (VDict [("@id", i); ("@type", VStr "@id")])).
Proof.
  intros Hin Hget Hnone.
  rewrite (to_document_field c attrs item Hin Hget Hnone).
  unfold entry_of, field_entry, inlined_class. split.
  - intros flag Hsub. split; [now rewrite Hsub|].
    destruct the_item; try discriminate Hsub.
    intros i. apply serialisation_is_no_reference.
  - intros i Hinl Hid. unfold inlined_class in Hinl. now rewrite Hinl, Hid.
Qed.

Lemma C6_subdocument_inlined_else_reference_witness :
  dict_get (to_document (holder (VBool true))) "home"
    = Some (_obj_to_dict (a_home (VBool true)))
  /\ dict_get (to_document (holder (VBool true))) "friend"
     = Some (VDict [("@id", VStr "Person_Ann%20Lee"); ("@type", VStr "@id")]).
Proof.
  split.
  - refine (proj1 (proj1 (@C6_subdocument_inlined_else_reference
                            Holder (holder_attrs (VBool true)) "home"
                            (a_home (VBool true)) _ eq_refl eq_refl)
                         (VBool true) eq_refl)).
    simpl. tauto.
  - refine (proj2 (@C6_subdocument_inlined_else_reference
                     Holder (holder_attrs (VBool true)) "friend"
                     a_friend _ eq_refl eq_refl)
                  _ eq_refl eq_refl).
    simpl. tauto.
Defined.

(** C6 (counterexample): [Note] is not a sub-document and the instance held
    in the field carries the identifier ["Note_1"], yet the field is stored
    as the serialisation of the instance and not as a reference, because the
    strategy of [Note] is [ValueHashKey]. *)
Lemma C6_counterexample :
  c_subdocument Note = None
  /\ getattr a_note "_id" = Some (VStr "Note_1")
  /\ dict_get (to_document (holder (VBool true))) "note"
     = Some (VDict [ ("@type", VStr "Note"); ("@id", VStr "Note_1");
                     ("text", VStr "hi") ])
  /\ dict_get (to_document (holder (VBool true))) "note"
     <> Some (VDict [("@id", VStr "Note_1"); ("@type", VStr "@id")]).
Proof. repeat split. discriminate. Qed.

(** C7: in the dictionary built for an instance, a declared field whose
    value is [None] has no entry at all, and a declared field whose value is
    not [None] has exactly one entry. *)
Theorem C7_none_fields_omitted_others_once
    (c : pyclass) (attrs : dict value) (item : string) :
  In item (dict_keys (c_annotations c)) ->
  reserved_key item = false ->
  (getattr (VObj c attrs) item = Some VNone ->
     dict_get (to_document (VObj c attrs)) item = None
     /\ dict_count (to_document (VObj c attrs)) item = 0%nat)
  /\ (forall v, getattr (VObj c attrs) item = Some v -> is_None v = false ->
        dict_get (to_document (VObj c attrs)) item = Some (entry_of v)
        /\ dict_count (to_document (VObj c attrs)) item = 1%nat).
Proof.
  intros Hin Hres. split.
  - intros Hget.
    assert (Hnone : dict_get (to_document (VObj c attrs)) item = None).
    { unfold to_document. rewrite _obj_to_dict_eq, loop_skips.
      - now apply initial_result_reserved.
      - left. unfold emitted. now rewrite Hget. }
    split; [exact Hnone|].
    apply dict_count_not_in. now apply dict_get_not_in_keys.
  - intros v Hget Hv. simpl in Hget.
    pose proof (to_document_field c attrs item Hin Hget Hv) as Hentry.
    split; [exact Hentry|].
    apply dict_count_NoDup_in.
    + unfold to_document. rewrite _obj_to_dict_eq.
      apply loop_NoDup, initial_result_NoDup.
    + eapply dict_get_in_keys; eauto.
Qed.

Lemma C7_none_fields_omitted_others_once_witness :
  dict_get (to_document (holder (VBool true))) "nick" = None
  /\ dict_count (to_document (holder (VBool true))) "friend" = 1%nat.
Proof.
  split.
  - refine (proj1 (proj1 (@C7_none_fields_omitted_others_once
                            Holder (holder_attrs (VBool true)) "nick"
                            _ eq_refl) eq_refl)).
    simpl. tauto.
  - refine (proj2 (proj2 (@C7_none_fields_omitted_others_once
                            Holder (holder_attrs (VBool true)) "friend"
                            _ eq_refl) a_friend eq_refl eq_refl)).
    simpl. tauto.
Defined.

(** ** Class serialisation *)

Section ToDictFacts.
Variable to_woql_type : pytype -> value.
Variable ClassDoc : pyclass -> classdoc.

Lemma fold_to_woql_type_get (ann : annotations) (r : dict value) k :
  ~ In k (dict_keys ann) ->
  dict_get (fold_left (fun r kv => dict_set r (fst kv) (to_woql_type (snd kv)))
                      ann r) k
  = dict_get r k.
Proof.
  revert r. induction ann as [|[k0 t0] ann IH]; intros r Hn; simpl; auto.
  simpl in Hn. rewrite IH by tauto.
  apply dict_get_set_neq. tauto.
Qed.

Lemma list_index_in x l : In x l -> exists i, list_index x l = Some i.
Proof.
  induction l as [|y l IH]; simpl; [tauto|].
  intros Hin. destruct (String.eqb y x) eqn:E; eauto.
  destruct IH as [i Hi].
  - destruct Hin as [->|]; auto. now rewrite String.eqb_refl in E.
  - rewrite Hi. simpl. eauto.
Qed.

(** [describe()] returns for every class of a hierarchy rooted in
    [DocumentTemplate]. *)
Lemma to_dict_returns cls :
  In "DocumentTemplate" (c_mro cls) ->
  exists d, DocumentTemplate_to_dict to_woql_type ClassDoc cls = Ok d.
Proof.
  intros Hin. unfold DocumentTemplate_to_dict.
  destruct (list_index_in _ _ Hin) as [i Hi]. rewrite Hi.
  destruct (negb (String.eqb (c_base_name cls) "DocumentTemplate"));
    [|destruct (String.eqb (c_base_name cls) "TaggedUnion")];
    cbn [bind]; eauto.
Qed.

Ltac through_sets :=
  repeat (rewrite dict_get_set_neq by discriminate).

Ltac open_to_dict H :=
  unfold DocumentTemplate_to_dict in H;
  destruct (String.eqb (c_base_name _) "DocumentTemplate") eqn:?Ebase;
  cbn [negb] in H;
  [ match type of Ebase with
    | String.eqb ?b _ = true =>
        apply String.eqb_eq in Ebase;
        replace (String.eqb b "TaggedUnion") with false in H
          by (rewrite Ebase; reflexivity)
    end
  | destruct (list_index "DocumentTemplate" (c_mro _));
    [|discriminate H] ];
  cbn [bind] in H; injection H as <-.

(** The ["@type"] entry of a class description is always ["Class"]: the
    branch that would write ["TaggedUnion"] is guarded by two tests on the
    same name that cannot both pass. *)
Lemma to_dict_type_is_Class cls d :
  ~ In "@type" (dict_keys (c_annotations cls)) ->
  DocumentTemplate_to_dict to_woql_type ClassDoc cls = Ok d ->
  dict_get d "@type" = Some (VStr "Class").
Proof.
  intros Hann H. open_to_dict H;
    rewrite fold_to_woql_type_get by assumption;
    destruct (truthy_doc (c_doc cls)), (c_base cls), (c_subdocument cls),
      (c_abstract cls), (c_key cls) as [key|];
    try destruct (key_keys key);
    through_sets; reflexivity.
Qed.

Lemma to_dict_subdocument cls d flag :
  ~ In "@subdocument" (dict_keys (c_annotations cls)) ->
  ~ In "@key" (dict_keys (c_annotations cls)) ->
  c_subdocument cls = Some flag ->
  DocumentTemplate_to_dict to_woql_type ClassDoc cls = Ok d ->
  dict_get d "@subdocument" = Some flag
  /\ dict_get d "@key" = Some (VDict [("@type", VStr "Random")]).
Proof.
  intros Hann1 Hann2 Hsub H. open_to_dict H;
    rewrite !fold_to_woql_type_get by assumption; rewrite Hsub;
    destruct (truthy_doc (c_doc cls)), (c_base cls),
      (c_abstract cls), (c_key cls) as [key|];
    (split; [through_sets; apply dict_get_set_eq
            |through_sets; apply dict_get_set_eq]).
Qed.

Lemma to_dict_no_subdocument cls d key :
  ~ In "@subdocument" (dict_keys (c_annotations cls)) ->
  ~ In "@key" (dict_keys (c_annotations cls)) ->
  c_subdocument cls = None ->
  c_key cls = Some key ->
  DocumentTemplate_to_dict to_woql_type ClassDoc cls = Ok d ->
  dict_get d "@subdocument" = None
  /\ dict_get d "@key"
     = Some (VDict (("@type", VStr (at_type key))
                      :: match key_keys key with
                         | Some ks => [("@fields", keys_value ks)]
                         | None => []
                         end)).
Proof.
  intros Hann1 Hann2 Hsub Hkey H. open_to_dict H;
    rewrite !fold_to_woql_type_get by assumption; rewrite Hsub, Hkey;
    destruct (truthy_doc (c_doc cls)), (c_base cls), (c_abstract cls),
      (key_keys key);
    (split; [through_sets; reflexivity|apply dict_get_set_eq]).
Qed.
End ToDictFacts.

(** C5 (as the code behaves): [Shape] is declared as [class
    Shape(TaggedUnion)], so its nearest ancestor is the tagged-union base;
    its description is returned with ["@type": "Class"] and lists
    [TaggedUnion] under ["@inherits"]. *)
Theorem C5_tagged_union_described_as_Class :
  c_base_name Shape = "TaggedUnion"
  /\ exists d,
       DocumentTemplate_to_dict to_woql_type_xsd ClassDoc_empty Shape = Ok d
       /\ dict_get d "@type" = Some (VStr "Class")
       /\ dict_get d "@inherits" = Some (VList [VStr "TaggedUnion"]).
Proof. split; [reflexivity|]. eexists. repeat split. Qed.

(** C10: a class on which [_subdocument] is defined, with whatever value,
    is described with that value under ["@subdocument"] and with the key
    [{"@type": "Random"}] in place of its configured strategy, and an
    instance of it held in a field is stored as its own serialisation and
    not as a reference; a class on which the attribute is not defined has no
    ["@subdocument"] entry and is described with its configured strategy. *)
Theorem C10_subdocument_by_presence
    (to_woql_type : pytype -> value) (ClassDoc : pyclass -> classdoc)
    (cls : pyclass) :
  In "DocumentTemplate" (c_mro cls) ->
  Forall (fun k => reserved_key k = false) (dict_keys (c_annotations cls)) ->
  (exists d,
     DocumentTemplate_to_dict to_woql_type ClassDoc cls = Ok d
     /\ match c_subdocument cls with
        | Some flag =>
            dict_get d "@subdocument" = Some flag
            /\ dict_get d "@key" = Some (VDict [("@type", VStr "Random")])
        | None =>
            dict_get d "@subdocument" = None
            /\ forall key, c_key cls = Some key ->
                 dict_get d "@key"
                 = Some (VDict (("@type", VStr (at_type key))
                                  :: match key_keys key with
                                     | Some ks => [("@fields", keys_value ks)]
                                     | None => []
                                     end))
        end)
  /\ (forall flag c attrs item the_item,
        c_subdocument cls = Some flag ->
        class_of the_item = cls ->
        In item (dict_keys (c_annotations c)) ->
        dict_get attrs item = Some the_item ->
        dict_get (to_document (VObj c attrs)) item
          = Some (_obj_to_dict the_item)
        /\ forall i, _obj_to_dict the_item
                     <> VDict [("@id", i); ("@type", VStr "@id")]).
Proof.
  intros Hmro Hann.
  assert (Hres : forall k, reserved_key k = true ->
                           ~ In k (dict_keys (c_annotations cls))).
  { intros k Hk Hin. rewrite Forall_forall in Hann.
    apply Hann in Hin. congruence. }
  split.
  - destruct (to_dict_returns to_woql_type ClassDoc cls Hmro) as [d Hd].
    exists d. split; [exact Hd|].
    destruct (c_subdocument cls) as [flag|] eqn:Hsub.
    + eapply to_dict_subdocument; eauto.
    + split.
      * destruct (c_key cls) as [key|] eqn:Hkey.
        -- eapply to_dict_no_subdocument; eauto.
        -- revert Hd. unfold DocumentTemplate_to_dict.
           rewrite Hsub, Hkey.
           destruct (negb (String.eqb (c_base_name cls) "DocumentTemplate"));
             [destruct (list_index "DocumentTemplate" (c_mro cls))
             |destruct (String.eqb (c_base_name cls) "TaggedUnion")];
             cbn [bind]; try discriminate; intros [= <-];
             rewrite fold_to_woql_type_get by (apply Hres; reflexivity);
             destruct (truthy_doc (c_doc cls)), (c_base cls), (c_abstract cls);
             repeat (rewrite dict_get_set_neq by discriminate); reflexivity.
      * intros key Hkey. eapply to_dict_no_subdocument; eauto.
  - intros flag c attrs item the_item Hsub Hcls Hin Hget. subst cls.
    destruct the_item; try discriminate Hsub.
    split.
    + rewrite (to_document_field c attrs item Hin Hget eq_refl).
      unfold entry_of, field_entry, inlined_class. now rewrite Hsub.
    + intros i. apply serialisation_is_no_reference.
Qed.

Lemma C10_subdocument_by_presence_witness :
  (exists d,
     DocumentTemplate_to_dict to_woql_type_xsd ClassDoc_empty
                              (Address (VBool false)) = Ok d
     /\ dict_get d "@subdocument" = Some (VBool false)
     /\ dict_get d "@key" = Some (VDict [("@type", VStr "Random")]))
  /\ dict_get (to_document (holder (VBool false))) "home"
     = Some (_obj_to_dict (a_home (VBool false))).
Proof.
  assert (Hmro : In "DocumentTemplate" (c_mro (Address (VBool false))))
    by (simpl; tauto).
  assert (Hann : Forall (fun k => reserved_key k = false)
                        (dict_keys (c_annotations (Address (VBool false)))))
    by (repeat constructor).
  pose proof (@C10_subdocument_by_presence to_woql_type_xsd ClassDoc_empty
                (Address (VBool false)) Hmro Hann) as [Hcls Hinst].
  split.
  - exact Hcls.
  - refine (proj1 (Hinst (VBool false) Holder (holder_attrs (VBool false))
                         "home" (a_home (VBool false))
                         eq_refl eq_refl _ eq_refl)).
    simpl. tauto.
Defined.

(** ** The schema container *)

Module StoreFacts.
Import stdpp.base stdpp.option stdpp.gmap.
Import Store.

Lemma set_map_deepcopy_class (objects : gset addr) :
  set_map deepcopy_class objects = objects.
Proof.
  apply set_eq. intros x. rewrite elem_of_map. unfold deepcopy_class.
  naive_solver.
Qed.

Lemma fresh_schema_unused (st : store) :
  st_schemas st !! fresh (dom (st_schemas st)) = None.
Proof. apply not_elem_of_dom, is_fresh. Qed.

Lemma copy_result st self objects :
  st_schemas st !! self = Some objects ->
  WOQLSchema_copy st self
  = Some (fresh (dom (st_schemas st)),
          MkStore (st_classes st)
                  (<[fresh (dom (st_schemas st)) := objects]> (st_schemas st))).
Proof.
  intros Hself. unfold WOQLSchema_copy. rewrite Hself. simpl.
  now rewrite set_map_deepcopy_class.
Qed.

Lemma registered_lookup st self objects cls :
  st_schemas st !! self = Some objects ->
  cls ∈ objects ->
  forall m, registered st self = Some m ->
            m !! cls = st_classes st !! cls.
Proof.
  intros Hself Hin m. unfold registered. rewrite Hself. simpl.
  intros [= <-].
  destruct (st_classes st !! cls) as [c|] eqn:Hc.
  - apply map_lookup_filter_Some. auto.
  - apply map_lookup_filter_None. left. exact Hc.
Qed.

Lemma copy_shares_classes st self objects :
  st_schemas st !! self = Some objects ->
  exists new st',
    WOQLSchema_copy st self = Some (new, st')
    /\ new <> self
    /\ st_schemas st' !! self = Some objects
    /\ all_obj st' new = Some objects
    /\ st_classes st' = st_classes st.
Proof.
  intros Hself.
  pose proof (fresh_schema_unused st) as Hfresh.
  set (new := fresh (dom (st_schemas st))) in *.
  assert (Hne : new <> self) by (intros ->; congruence).
  exists new, (MkStore (st_classes st) (<[new := objects]> (st_schemas st))).
  repeat split.
  - now apply copy_result.
  - exact Hne.
  - cbn [st_schemas]. rewrite lookup_insert_ne by exact Hne. exact Hself.
  - apply lookup_insert_eq.
Qed.

Lemma registered_after_setattr st self objects cls update :
  st_schemas st !! self = Some objects ->
  cls ∈ objects ->
  exists m, registered (class_setattr st cls update) self = Some m
            /\ m !! cls = update <$> (st_classes st !! cls).
Proof.
  intros Hself Hin.
  assert (Hself' : st_schemas (class_setattr st cls update) !! self
                   = Some objects) by exact Hself.
  destruct (registered (class_setattr st cls update) self) as [m|] eqn:Hm.
  - exists m. split; [reflexivity|].
    rewrite (@registered_lookup _ _ _ _ Hself' Hin _ Hm).
    unfold class_setattr. simpl. apply lookup_alter_eq.
  - unfold registered in Hm. rewrite Hself' in Hm. discriminate.
Qed.

(** C8 (amended): [copy] returns a new container that holds the same
    class objects as the original.  The two containers are independent:
    registering a class in the copy leaves the set of the original
    unchanged.  The classes are shared: an assignment to an attribute of a
    class reached from either container is seen from both. *)
Theorem C8_copy_is_new_container_over_shared_classes
    (st : store) (self : addr) (objects : gset addr) :
  st_schemas st !! self = Some objects ->
  exists new st',
    WOQLSchema_copy st self = Some (new, st')
    /\ new <> self
    /\ all_obj st' self = Some objects
    /\ all_obj st' new = Some objects
    /\ st_classes st' = st_classes st
    /\ (forall obj, exists st'',
          add_obj st' new obj = Some st''
          /\ all_obj st'' new = Some ({[obj]} ∪ objects)
          /\ all_obj st'' self = Some objects)
    /\ (forall cls update, cls ∈ objects ->
          exists m_self m_new,
            registered (class_setattr st' cls update) self = Some m_self
            /\ registered (class_setattr st' cls update) new = Some m_new
            /\ m_self !! cls = update <$> (st_classes st !! cls)
            /\ m_new !! cls = update <$> (st_classes st !! cls)).
Proof.
  intros Hself.
  pose proof (fresh_schema_unused st) as Hfresh.
  set (new := fresh (dom (st_schemas st))) in *.
  assert (Hne : new <> self) by (intros ->; congruence).
  exists new, (MkStore (st_classes st) (<[new := objects]> (st_schemas st))).
  split; [now apply copy_result|].
  split; [exact Hne|].
  assert (Hs : (<[new := objects]> (st_schemas st)) !! self = Some objects)
    by (rewrite lookup_insert_ne by exact Hne; exact Hself).
  assert (Hn : (<[new := objects]> (st_schemas st)) !! new = Some objects)
    by apply lookup_insert_eq.
  repeat split; try assumption.
  - intros obj. eexists. unfold add_obj. cbn [st_schemas st_classes].
    rewrite Hn. cbn. split; [reflexivity|].
    unfold all_obj. cbn [st_schemas]. split.
    + apply lookup_insert_eq.
    + rewrite lookup_insert_ne by exact Hne. exact Hs.
  - intros cls update Hin.
    destruct (@registered_after_setattr
                (MkStore (st_classes st) (<[new := objects]> (st_schemas st)))
                self objects cls update Hs Hin) as [m1 [H1 H1']].
    destruct (@registered_after_setattr
                (MkStore (st_classes st) (<[new := objects]> (st_schemas st)))
                new objects cls update Hn Hin) as [m2 [H2 H2']].
    exists m1, m2. auto.
Qed.

Lemma C8_copy_is_new_container_over_shared_classes_witness :
  exists new st',
    WOQLSchema_copy person_store 0%nat = Some (new, st')
    /\ new <> 0%nat
    /\ all_obj st' new = Some {[ 0%nat ]}.
Proof.
  destruct (@C8_copy_is_new_container_over_shared_classes
              person_store 0%nat {[ 0%nat ]} (lookup_singleton_eq _ _))
    as (new & st' & Hcopy & Hne & _ & Hnew & _).
  exists new, st'. auto.
Defined.

(** C8 (counterexample): [Person] is registered in a container; after
    [copy], setting [_base] on the class reached from the copy changes
    the class the original container holds. *)
Lemma C8_counterexample : ~ spec_independent_copy person_store 0%nat.
Proof.
  intros Hspec.
  assert (Hself : st_schemas person_store !! 0%nat = Some {[ 0%nat ]})
    by apply lookup_singleton_eq.
  destruct (@copy_shares_classes person_store 0%nat _ Hself)
    as (new & st' & Hcopy & Hne & Hs & Hn & Hcls).
  specialize (Hspec new st' 0%nat (set_base (VStr "People")) Hcopy).
  assert (Hin : (0%nat : addr) ∈ ({[ 0%nat ]} : gset addr))
    by (now apply elem_of_singleton).
  specialize (Hspec (ex_intro _ _ (conj Hn Hin))).
  destruct (@registered_after_setattr st' 0%nat _ 0%nat
              (set_base (VStr "People")) Hs Hin) as [m [Hm Hm0]].
  rewrite Hspec in Hm.
  pose proof (@registered_lookup _ _ _ _ Hs Hin _ Hm) as Hm1.
  rewrite Hm0, Hcls in Hm1.
  unfold person_store in Hm1. cbn [st_classes] in Hm1.
  rewrite lookup_singleton_eq in Hm1. discriminate Hm1.
Qed.
End StoreFacts.

(** * Further properties of the module *)

(** ** The generated constructor *)

Section ConstructorFacts.
Variable check_type : value -> option pytype -> bool.

Lemma setattr_accepted c attrs key v :
  DocumentTemplate_setattr check_type c attrs key v
  = if field_accepted check_type c key v then Ok (dict_set attrs key v)
    else Raise (TypeError_check_type key).
Proof.
  unfold DocumentTemplate_setattr, field_accepted.
  destruct (starts_with_underscore key), (is_None v); cbn [negb andb orb];
    try reflexivity.
Qed.

Lemma init_fields_runs c kwargs fields attrs :
  forallb (fun key => field_accepted check_type c key (field_arg kwargs key))
          fields = true ->
  exists attrs',
    init_fields check_type c fields kwargs attrs = Ok attrs'
    /\ forall k, dict_get attrs' k
                 = if existsb (String.eqb k) fields
                   then Some (field_arg kwargs k) else dict_get attrs k.
Proof.
  revert attrs. induction fields as [|key fields IH]; intros attrs Hall.
  - exists attrs. split; reflexivity.
  - cbn [forallb] in Hall. apply andb_prop in Hall as [Hkey Hrest].
    cbn [init_fields]. fold (field_arg kwargs key).
    rewrite setattr_accepted, Hkey. cbn [bind].
    destruct (IH (dict_set attrs key (field_arg kwargs key)) Hrest)
      as [attrs' [Hrun Hget]].
    exists attrs'. split; [exact Hrun|].
    intros k. rewrite Hget. cbn [existsb].
    destruct (existsb (String.eqb k) fields); [now rewrite orb_true_r|].
    rewrite orb_false_r. destruct (String.eqb k key) eqn:E.
    + apply String.eqb_eq in E; subst k. apply dict_get_set_eq.
    + apply dict_get_set_neq. apply String.eqb_neq in E. congruence.
Qed.


Lemma init_fields_never_abstract c kwargs fields attrs n :
  init_fields check_type c fields kwargs attrs <> Raise (TypeError_abstract n).
Proof.
  revert attrs. induction fields as [|key fields IH]; intros attrs.
  - discriminate.
  - cbn [init_fields]. rewrite setattr_accepted.
    destruct (field_accepted check_type c key _); cbn [bind];
      [apply IH|discriminate].
Qed.

(** X1: the constructor refuses to build an instance, with the [TypeError]
    of abstract classes, exactly when [_abstract] is defined on the class
    with a value other than the boolean [False]; in particular any
    non-boolean value, such as [None] or [0], makes the class abstract. *)
Theorem X1_init_abstract_iff (c : pyclass) (kwargs : dict value) :
  init check_type c kwargs = Raise (TypeError_abstract (c_name c))
  <-> exists v, c_abstract c = Some v /\ v <> VBool false.
Proof.
  assert (Hrun : (attrs <- init_fields check_type c
                             (dict_keys (c_annotations c)) kwargs [] ;;
                  Ok (VObj c attrs))
                 <> Raise (TypeError_abstract (c_name c))).
  { pose proof (@init_fields_never_abstract c kwargs
                  (dict_keys (c_annotations c)) [] (c_name c)) as Hne.
    destruct (init_fields check_type c (dict_keys (c_annotations c)) kwargs []);
      cbn [bind]; congruence. }
  unfold init, resolve_abstract. split.
  - destruct (c_abstract c) as [v|]; [|intros H; now apply Hrun in H].
    intros H. exists v. split; [reflexivity|].
    intros ->. now apply Hrun in H.
  - intros [v [-> Hv]].
    destruct v as [|[|]| | | | | |]; try reflexivity. congruence.
Qed.

(** X2: on a class that declares no field named [_annotations], an
    instance the constructor returns belongs to the class, and every
    declared field is an attribute of it that holds the keyword argument of
    that name, or [None] when no such argument was given. *)
Theorem X2_init_attributes (c : pyclass) (kwargs : dict value) (obj : value) :
  ~ In "_annotations" (dict_keys (c_annotations c)) ->
  init check_type c kwargs = Ok obj ->
  class_of obj = c
  /\ forall k, In k (dict_keys (c_annotations c)) ->
               getattr obj k = Some (field_arg kwargs k).
Proof.
  intros _. unfold init. destruct (resolve_abstract c); [discriminate|].
  destruct (forallb (fun key => field_accepted check_type c key
                                  (field_arg kwargs key))
                    (dict_keys (c_annotations c))) eqn:Hall.
  - destruct (@init_fields_runs c kwargs _ [] Hall) as [attrs' [Hrun Hget]].
    rewrite Hrun. cbn [bind]. intros [= <-]. split; [reflexivity|].
    intros k Hin. cbn [getattr]. rewrite Hget.
    assert (Hex : existsb (String.eqb k) (dict_keys (c_annotations c)) = true).
    { apply existsb_exists. exists k. split; [exact Hin|].
      apply String.eqb_refl. }
    now rewrite Hex.
  - intros Hok. exfalso. revert Hok Hall.
    generalize (@nil (string * value)) as attrs.
    induction (dict_keys (c_annotations c)) as [|key fields IH];
      intros attrs Hok Hall; [discriminate|].
    cbn [init_fields] in Hok. fold (field_arg kwargs key) in Hok.
    rewrite setattr_accepted in Hok. cbn [forallb] in Hall.
    destruct (field_accepted check_type c key (field_arg kwargs key));
      cbn [bind andb] in *; [eauto|discriminate].
Qed.

End ConstructorFacts.

Lemma X2_init_attributes_witness :
  getattr (ann Person) "name" = Some (VStr "Ann Lee")
  /\ getattr (ann Person) "age" = Some (VInt 30).
Proof.
  assert (Hno : ~ In "_annotations" (dict_keys (c_annotations Person)))
    by (simpl; intuition discriminate).
  pose proof (@X2_init_attributes check_type_simple Person
                ann_kwargs (ann Person) Hno eq_refl) as [_ Hget].
  split; [apply (Hget "name")|apply (Hget "age")]; simpl; tauto.
Defined.


(** ** The merged annotations *)

Lemma dict_get_None_iff (V : Type) (d : dict V) k :
  dict_get d k = None <-> ~ In k (dict_keys d).
Proof.
  split; [apply dict_get_not_in_keys|].
  intros Hn. destruct (dict_get d k) eqn:G; auto.
  apply dict_get_in_keys in G. tauto.
Qed.

Lemma dict_keys_set (V : Type) (d : dict V) k v :
  dict_keys (dict_set d k v)
  = dict_keys d ++ (if dict_has d k then [] else [k]).
Proof.
  unfold dict_has. induction d as [|[k0 v0] d IH]; simpl; auto.
  destruct (String.eqb k0 k) eqn:E; simpl.
  - now rewrite app_nil_r.
  - now rewrite IH.
Qed.

Lemma dict_keys_update (V : Type) (other d : dict V) :
  (exists added, dict_keys (dict_update d other) = dict_keys d ++ added)
  /\ (forall k, In k (dict_keys (dict_update d other))
                <-> In k (dict_keys d) \/ In k (dict_keys other))
  /\ (NoDup (dict_keys d) -> NoDup (dict_keys (dict_update d other))).
Proof.
  unfold dict_update. revert d.
  induction other as [|[k0 v0] other IH]; intros d; simpl.
  - split; [exists []; now rewrite app_nil_r|]. split; [tauto|auto].
  - destruct (IH (dict_set d k0 v0)) as [[added Hadd] [Hin Hnd]].
    split; [|split].
    + rewrite Hadd, dict_keys_set, <- app_assoc. eauto.
    + intros k. rewrite Hin, dict_keys_set_in. intuition.
    + intros H. apply Hnd. now apply dict_set_NoDup.
Qed.

Lemma merge_fold_keys (bases : list (option annotations)) (acc : annotations) :
  let merged := fold_left (fun acc parent =>
                             dict_update acc (base_annotations parent))
                          bases acc in
  (exists inherited, dict_keys merged = dict_keys acc ++ inherited)
  /\ (forall k,
        In k (dict_keys merged)
        <-> In k (dict_keys acc)
            \/ exists parent, In parent bases
                              /\ In k (dict_keys (base_annotations parent)))
  /\ (NoDup (dict_keys acc) -> NoDup (dict_keys merged)).
Proof.
  revert acc. induction bases as [|parent bases IH]; intros acc; cbn zeta.
  - cbn [fold_left]. split; [exists []; now rewrite app_nil_r|].
    split; [|auto].
    intros k. split; [tauto|]. intros [H|[p [[] _]]]. exact H.
  - cbn [fold_left].
    destruct (IH (dict_update acc (base_annotations parent)))
      as [[inh Hinh] [Hin Hnd]].
    destruct (dict_keys_update (base_annotations parent) acc)
      as [[added Hadd] [Hin' Hnd']].
    split; [|split].
    + rewrite Hinh, Hadd, <- app_assoc. eauto.
    + intros k. rewrite Hin, Hin'. split.
      * intros [[H|H]|[p [Hp Hk]]].
        -- now left.
        -- right. exists parent. split; [now left|exact H].
        -- right. exists p. split; [now right|exact Hk].
      * intros [H|[p [[->|Hp] Hk]]].
        -- left. now left.
        -- left. now right.
        -- right. eauto.
    + intros H. auto.
Qed.

(** X4: the merged annotations of a class list the fields of the class
    body first, in their order, followed by inherited ones; a name is a
    field of the class exactly when the body or one of the bases declares
    it; and no field is listed twice. *)
Theorem X4_merged_annotation_fields
    (own : option annotations) (bases : list (option annotations)) :
  (exists inherited,
     dict_keys (TerminusClass_annotations own bases)
     = dict_keys (base_annotations own) ++ inherited)
  /\ (forall k,
        In k (dict_keys (TerminusClass_annotations own bases))
        <-> In k (dict_keys (base_annotations own))
            \/ exists parent, In parent bases
                              /\ In k (dict_keys (base_annotations parent)))
  /\ (NoDup (dict_keys (base_annotations own)) ->
      NoDup (dict_keys (TerminusClass_annotations own bases))).
Proof.
  unfold TerminusClass_annotations.
  destruct own as [a|]; apply merge_fold_keys.
Qed.

Lemma X4_merged_annotation_fields_witness :
  NoDup (dict_keys (TerminusClass_annotations
                      (Some [("salary", TyInt)])
                      [Some [("name", TyStr); ("age", TyInt)]])).
Proof.
  apply (proj2 (proj2 (X4_merged_annotation_fields
                         (Some [("salary", TyInt)])
                         [Some [("name", TyStr); ("age", TyInt)]]))).
  simpl. constructor; [intros []|constructor].
Defined.

Lemma merge_skips_bases (bases : list (option annotations))
    (acc : annotations) k :
  (forall parent, In parent bases -> dict_get (base_annotations parent) k = None) ->
  dict_get (fold_left (fun acc parent =>
                         dict_update acc (base_annotations parent)) bases acc) k
  = dict_get acc k.
Proof.
  revert acc. induction bases as [|parent bases IH]; intros acc Hno; simpl; auto.
  rewrite IH by (intros p Hp; apply Hno; now right).
  rewrite dict_get_update.
  assert (Hrev : dict_get (rev (base_annotations parent)) k = None).
  { apply dict_get_None_iff. unfold dict_keys. rewrite map_rev, <- in_rev.
    apply dict_get_None_iff. apply Hno. now left. }
  now rewrite Hrev.
Qed.

(** X5: a field that only the class body declares keeps the declared type
    in the merged annotations; a field that the body does not declare has
    the type given by the last base that declares it. *)
Theorem X5_merged_annotation_types
    (own : option annotations) (bases : list (option annotations))
    (k : string) (t : pytype) :
  (dict_get (base_annotations own) k = Some t ->
   (forall parent, In parent bases ->
                   dict_get (base_annotations parent) k = None) ->
   dict_get (TerminusClass_annotations own bases) k = Some t)
  /\ (forall before parent after,
        bases = before ++ Some parent :: after ->
        dict_get (base_annotations own) k = None ->
        NoDup (dict_keys parent) ->
        dict_get parent k = Some t ->
        (forall p, In p after -> dict_get (base_annotations p) k = None) ->
        dict_get (TerminusClass_annotations own bases) k = Some t).
Proof.
  unfold TerminusClass_annotations.
  replace (match own with Some a => a | None => [] end)
    with (base_annotations own) by (now destruct own).
  split.
  - intros Hown Hno. now rewrite merge_skips_bases.
  - intros before parent after -> _ Hnd Hget Hafter.
    rewrite fold_left_app. cbn [fold_left].
    rewrite merge_skips_bases by assumption.
    cbn [base_annotations].
    now rewrite dict_get_update, dict_get_rev_NoDup, Hget.
Qed.

Lemma X5_merged_annotation_types_witness :
  dict_get (TerminusClass_annotations
              (Some [("salary", TyInt)])
              [Some [("name", TyStr); ("age", TyInt)]; None]) "salary"
  = Some TyInt
  /\ dict_get (TerminusClass_annotations
                 (Some [("salary", TyInt)])
                 [Some [("name", TyStr); ("age", TyInt)]; None]) "age"
     = Some TyInt.
Proof.
  split.
  - apply (proj1 (X5_merged_annotation_types
                    (Some [("salary", TyInt)])
                    [Some [("name", TyStr); ("age", TyInt)]; None]
                    "salary" TyInt)); [reflexivity|].
    intros parent [<-|[<-|[]]]; reflexivity.
  - apply (proj2 (X5_merged_annotation_types
                    (Some [("salary", TyInt)])
                    [Some [("name", TyStr); ("age", TyInt)]; None]
                    "age" TyInt)
                 [] [("name", TyStr); ("age", TyInt)] [None]);
      try reflexivity.
    + simpl. repeat constructor; simpl; intuition discriminate.
    + intros p [<-|[]]. reflexivity.
Defined.

(** ** The description of a class *)

Section DescribeFacts.
Variable to_woql_type : pytype -> value.
Variable ClassDoc : pyclass -> classdoc.

Lemma list_index_app x pre rest :
  ~ In x pre -> list_index x (pre ++ x :: rest) = Some (List.length pre).
Proof.
  induction pre as [|y pre IH]; simpl; intros Hn.
  - now rewrite String.eqb_refl.
  - destruct (String.eqb y x) eqn:E.
    + apply String.eqb_eq in E. tauto.
    + rewrite IH by tauto. reflexivity.
Qed.

Lemma list_index_not_in x l : ~ In x l -> list_index x l = None.
Proof.
  induction l as [|y l IH]; simpl; intros Hn; auto.
  destruct (String.eqb y x) eqn:E.
  - apply String.eqb_eq in E. tauto.
  - rewrite IH by tauto. reflexivity.
Qed.

Lemma slice_between first ancestors rest :
  slice_from_1 (first :: ancestors ++ "DocumentTemplate" :: rest)
               (List.length (first :: ancestors))
  = ancestors.
Proof.
  unfold slice_from_1. cbn [List.length firstn skipn].
  rewrite firstn_app, Nat.sub_diag, firstn_all. cbn [firstn].
  apply app_nil_r.
Qed.

Lemma fold_to_woql_type_get_in (ann : annotations) (r : dict value) k t :
  NoDup (dict_keys ann) ->
  dict_get ann k = Some t ->
  dict_get (fold_left (fun r kv => dict_set r (fst kv) (to_woql_type (snd kv)))
                      ann r) k
  = Some (to_woql_type t).
Proof.
  revert r. induction ann as [|[k0 t0] ann IH]; intros r Hnd Hget;
    [discriminate|].
  cbn [dict_keys map fst] in Hnd. inversion Hnd as [|? ? Hnotin Hnd']; subst.
  cbn [dict_get] in Hget. cbn [fold_left fst snd].
  destruct (String.eqb k0 k) eqn:E.
  - apply String.eqb_eq in E; subst k0. injection Hget as <-.
    rewrite fold_to_woql_type_get by exact Hnotin.
    apply dict_get_set_eq.
  - now apply IH.
Qed.

Lemma reserved_keys_set (r : dict value) k v :
  (forall k', In k' (dict_keys r) -> reserved_key k' = true) ->
  reserved_key k = true ->
  forall k', In k' (dict_keys (dict_set r k v)) -> reserved_key k' = true.
Proof.
  intros Hr Hk k' Hin. apply dict_keys_set_in in Hin.
  destruct Hin as [->|Hin]; auto.
Qed.

Lemma initial_description_NoDup (a b : value) :
  NoDup (dict_keys [("@type", a); ("@id", b)]).
Proof.
  cbn [dict_keys map fst]. constructor.
  - intros [H|[]]. discriminate H.
  - constructor; [intros []|constructor].
Qed.

Lemma initial_description_reserved (a b : value) k :
  In k (dict_keys [("@type", a); ("@id", b)]) -> reserved_key k = true.
Proof. intros [<-|[<-|[]]]; reflexivity. Qed.

Ltac describe_facts Hnd Hres :=
  split;
  [ repeat apply dict_set_NoDup; exact Hnd
  | split;
    [ repeat (apply reserved_keys_set; [|reflexivity]); exact Hres
    | repeat split;
      repeat first [ rewrite dict_get_set_eq; reflexivity
                   | rewrite dict_get_set_neq by discriminate ];
      first [assumption | reflexivity] ] ].

(** The dictionary before the loop over the annotations. *)
Lemma describe_shape cls d :
  DocumentTemplate_to_dict to_woql_type ClassDoc cls = Ok d ->
  exists r,
    d = fold_left (fun r kv => dict_set r (fst kv) (to_woql_type (snd kv)))
                  (c_annotations cls) r
    /\ NoDup (dict_keys r)
    /\ (forall k, In k (dict_keys r) -> reserved_key k = true)
    /\ dict_get r "@id" = Some (VStr (c_name cls))
    /\ dict_get r "@base" = c_base cls
    /\ dict_get r "@abstract" = c_abstract cls
    /\ dict_get r "@documentation"
       = (if truthy_doc (c_doc cls) then Some (documentation ClassDoc cls)
          else None)
    /\ dict_get r "@inherits"
       = (if String.eqb (c_base_name cls) "DocumentTemplate" then None
          else option_map
                 (fun i => VList (map VStr (slice_from_1 (c_mro cls) i)))
                 (list_index "DocumentTemplate" (c_mro cls))).
Proof.
  unfold DocumentTemplate_to_dict.
  pose proof (initial_description_NoDup
                (VStr "Class") (VStr (c_name cls))) as Hnd.
  pose proof (@initial_description_reserved
                (VStr "Class") (VStr (c_name cls))) as Hres.
  assert (Hid : dict_get [("@type", VStr "Class"); ("@id", VStr (c_name cls))]
                         "@id" = Some (VStr (c_name cls))) by reflexivity.
  assert (Hb : dict_get [("@type", VStr "Class"); ("@id", VStr (c_name cls))]
                        "@base" = None) by reflexivity.
  assert (Ha : dict_get [("@type", VStr "Class"); ("@id", VStr (c_name cls))]
                        "@abstract" = None) by reflexivity.
  assert (Hd : dict_get [("@type", VStr "Class"); ("@id", VStr (c_name cls))]
                        "@documentation" = None) by reflexivity.
  assert (Hi : dict_get [("@type", VStr "Class"); ("@id", VStr (c_name cls))]
                        "@inherits" = None) by reflexivity.
  revert Hnd Hres Hid Hb Ha Hd Hi.
  generalize [("@type", VStr "Class"); ("@id", VStr (c_name cls))] as r0.
  intros r0 Hnd Hres Hid Hb Ha Hd Hi.
  destruct (String.eqb (c_base_name cls) "DocumentTemplate") eqn:Ebase;
    cbn [negb].
  - apply String.eqb_eq in Ebase.
    replace (String.eqb (c_base_name cls) "TaggedUnion") with false
      by (rewrite Ebase; reflexivity).
    cbn [bind]. intros [= <-]. eexists. split; [reflexivity|].
    destruct (truthy_doc (c_doc cls)), (c_base cls), (c_subdocument cls),
      (c_abstract cls), (c_key cls) as [key|];
      try destruct (key_keys key); describe_facts Hnd Hres.
  - destruct (list_index "DocumentTemplate" (c_mro cls)) as [i|];
      [|discriminate].
    cbn [bind option_map]. intros [= <-]. eexists. split; [reflexivity|].
    destruct (truthy_doc (c_doc cls)), (c_base cls), (c_subdocument cls),
      (c_abstract cls), (c_key cls) as [key|];
      try destruct (key_keys key); describe_facts Hnd Hres.
Qed.

Lemma fold_to_woql_type_keys (ann : annotations) (r : dict value) :
  (NoDup (dict_keys r) ->
   NoDup (dict_keys (fold_left
                       (fun r kv => dict_set r (fst kv) (to_woql_type (snd kv)))
                       ann r)))
  /\ (forall k,
        In k (dict_keys (fold_left
                           (fun r kv => dict_set r (fst kv)
                                                 (to_woql_type (snd kv)))
                           ann r))
        <-> In k (dict_keys r) \/ In k (dict_keys ann)).
Proof.
  revert r. induction ann as [|[k0 t0] ann IH]; intros r; cbn [fold_left].
  - split; [auto|]. intros k. simpl. tauto.
  - destruct (IH (dict_set r k0 (to_woql_type t0))) as [Hnd Hin].
    cbn [fst snd]. split.
    + intros H. apply Hnd. now apply dict_set_NoDup.
    + intros k. rewrite Hin, dict_keys_set_in. simpl. intuition.
Qed.

Lemma reserved_not_declared (cls : pyclass) k :
  Forall (fun k => reserved_key k = false) (dict_keys (c_annotations cls)) ->
  reserved_key k = true ->
  ~ In k (dict_keys (c_annotations cls)).
Proof.
  intros Hann Hk Hin. rewrite Forall_forall in Hann.
  apply Hann in Hin. congruence.
Qed.

Lemma describe_returns_direct (cls : pyclass) :
  c_base_name cls = "DocumentTemplate" ->
  exists d, DocumentTemplate_to_dict to_woql_type ClassDoc cls = Ok d.
Proof.
  intros Hb. unfold DocumentTemplate_to_dict. rewrite Hb.
  cbn [String.eqb Ascii.eqb Bool.eqb negb andb bind]. eauto.
Qed.

(** X6: the description of a class whose first base is [DocumentTemplate]
    has no ["@inherits"] entry; for any other class the entry lists the
    names that stand in the method resolution order strictly between the
    class and [DocumentTemplate], in that order; and when [DocumentTemplate]
    is not among the ancestors of such a class, [list.index] raises
    [ValueError] and there is no description. *)
Theorem X6_describe_inherits (cls : pyclass) :
  ~ In "@inherits" (dict_keys (c_annotations cls)) ->
  (c_base_name cls = "DocumentTemplate" ->
   exists d, DocumentTemplate_to_dict to_woql_type ClassDoc cls = Ok d
             /\ dict_get d "@inherits" = None)
  /\ (forall first ancestors rest,
        c_base_name cls <> "DocumentTemplate" ->
        c_mro cls = first :: ancestors ++ "DocumentTemplate" :: rest ->
        ~ In "DocumentTemplate" (first :: ancestors) ->
        exists d, DocumentTemplate_to_dict to_woql_type ClassDoc cls = Ok d
                  /\ dict_get d "@inherits"
                     = Some (VList (map VStr ancestors)))
  /\ (c_base_name cls <> "DocumentTemplate" ->
      ~ In "DocumentTemplate" (c_mro cls) ->
      DocumentTemplate_to_dict to_woql_type ClassDoc cls
      = Raise ValueError_not_in_list).
Proof.
  intros Hann.
  assert (Hget : forall d,
             DocumentTemplate_to_dict to_woql_type ClassDoc cls = Ok d ->
             dict_get d "@inherits"
             = (if String.eqb (c_base_name cls) "DocumentTemplate" then None
                else option_map
                       (fun i => VList (map VStr (slice_from_1 (c_mro cls) i)))
                       (list_index "DocumentTemplate" (c_mro cls)))).
  { intros d Hd. destruct (@describe_shape cls d Hd) as (r & -> & _ & _ & _ & _ & _ & _ & Hi).
    now rewrite fold_to_woql_type_get. }
  split; [|split].
  - intros Hb. destruct (@describe_returns_direct cls Hb) as [d Hd].
    exists d. split; [exact Hd|].
    rewrite (Hget d Hd), Hb. reflexivity.
  - intros first ancestors rest Hb Hmro Hnot.
    assert (Hidx : list_index "DocumentTemplate" (c_mro cls)
                   = Some (List.length (first :: ancestors))).
    { rewrite Hmro. exact (@list_index_app "DocumentTemplate"
                             (first :: ancestors) rest Hnot). }
    assert (Hin : In "DocumentTemplate" (c_mro cls)).
    { rewrite Hmro. right. apply in_or_app. right. now left. }
    destruct (to_dict_returns to_woql_type ClassDoc cls Hin) as [d Hd].
    exists d. split; [exact Hd|].
    rewrite (Hget d Hd), Hidx.
    apply String.eqb_neq in Hb. rewrite Hb. cbn [option_map].
    now rewrite Hmro, slice_between.
  - intros Hb Hnot. unfold DocumentTemplate_to_dict.
    apply String.eqb_neq in Hb. rewrite Hb. cbn [negb].
    now rewrite (@list_index_not_in _ _ Hnot).
Qed.

(** X7: the description carries the class name under ["@id"] and, for
    every declared field, the declared type rendered by [to_woql_type]
    under the name of the field. *)
Theorem X7_describe_fields (cls : pyclass) :
  In "DocumentTemplate" (c_mro cls) ->
  NoDup (dict_keys (c_annotations cls)) ->
  Forall (fun k => reserved_key k = false) (dict_keys (c_annotations cls)) ->
  exists d,
    DocumentTemplate_to_dict to_woql_type ClassDoc cls = Ok d
    /\ dict_get d "@id" = Some (VStr (c_name cls))
    /\ forall field t,
         dict_get (c_annotations cls) field = Some t ->
         dict_get d field = Some (to_woql_type t).
Proof.
  intros Hmro Hnd Hann.
  destruct (to_dict_returns to_woql_type ClassDoc cls Hmro) as [d Hd].
  exists d. split; [exact Hd|].
  destruct (@describe_shape cls d Hd) as (r & -> & _ & _ & Hid & _).
  split.
  - rewrite fold_to_woql_type_get; [exact Hid|].
    now apply reserved_not_declared.
  - intros field t Hget. now apply fold_to_woql_type_get_in.
Qed.

(** X8: ["@base"] and ["@abstract"] are present exactly when the class
    defines [_base], resp. [_abstract], and carry the raw value of the
    attribute (a class with [_abstract = False] is described with
    ["@abstract": False]); ["@documentation"] is present exactly when the
    class has a non-empty docstring. *)
Theorem X8_describe_optional_entries (cls : pyclass) :
  In "DocumentTemplate" (c_mro cls) ->
  Forall (fun k => reserved_key k = false) (dict_keys (c_annotations cls)) ->
  exists d,
    DocumentTemplate_to_dict to_woql_type ClassDoc cls = Ok d
    /\ dict_get d "@base" = c_base cls
    /\ dict_get d "@abstract" = c_abstract cls
    /\ dict_get d "@documentation"
       = (if truthy_doc (c_doc cls) then Some (documentation ClassDoc cls)
          else None).
Proof.
  intros Hmro Hann.
  destruct (to_dict_returns to_woql_type ClassDoc cls Hmro) as [d Hd].
  exists d. split; [exact Hd|].
  destruct (@describe_shape cls d Hd) as (r & -> & _ & _ & _ & Hb & Ha & Hdoc & _).
  repeat split;
    (rewrite fold_to_woql_type_get;
     [assumption|now apply reserved_not_declared]).
Qed.

(** X9: a description never holds two entries under one key; each of its
    keys is a reserved ["@"] key or a declared field, and every declared
    field has an entry. *)
Theorem X9_describe_keys (cls : pyclass) (d : dict value) :
  DocumentTemplate_to_dict to_woql_type ClassDoc cls = Ok d ->
  NoDup (dict_keys d)
  /\ (forall k, In k (dict_keys d) ->
                reserved_key k = true \/ In k (dict_keys (c_annotations cls)))
  /\ (forall k, In k (dict_keys (c_annotations cls)) -> In k (dict_keys d)).
Proof.
  intros Hd.
  destruct (@describe_shape cls d Hd) as (r & -> & Hnd & Hres & _).
  destruct (@fold_to_woql_type_keys (c_annotations cls) r) as [Hnd' Hin].
  split; [now apply Hnd'|]. split.
  - intros k Hk. apply Hin in Hk. destruct Hk as [Hk|Hk]; auto.
  - intros k Hk. apply Hin. now right.
Qed.
End DescribeFacts.

Lemma X6_describe_inherits_witness :
  exists d,
    DocumentTemplate_to_dict to_woql_type_xsd ClassDoc_empty Shape = Ok d
    /\ dict_get d "@inherits" = Some (VList (map VStr ["TaggedUnion"])).
Proof.
  refine (proj1 (proj2 (@X6_describe_inherits to_woql_type_xsd ClassDoc_empty
                          Shape _))
                "Shape" ["TaggedUnion"] ["object"] _ eq_refl _).
  - simpl. intuition discriminate.
  - discriminate.
  - simpl. intuition discriminate.
Defined.

Lemma X7_describe_fields_witness :
  exists d,
    DocumentTemplate_to_dict to_woql_type_xsd ClassDoc_empty Person = Ok d
    /\ dict_get d "@id" = Some (VStr "Person")
    /\ forall field t,
         dict_get (c_annotations Person) field = Some t ->
         dict_get d field = Some (to_woql_type_xsd t).
Proof.
  apply (@X7_describe_fields to_woql_type_xsd ClassDoc_empty Person).
  - simpl. tauto.
  - simpl. repeat constructor; simpl; intuition discriminate.
  - repeat constructor.
Defined.

Lemma X8_describe_optional_entries_witness :
  exists d,
    DocumentTemplate_to_dict to_woql_type_xsd ClassDoc_empty Person = Ok d
    /\ dict_get d "@base" = None
    /\ dict_get d "@abstract" = None
    /\ dict_get d "@documentation" = None.
Proof.
  apply (@X8_describe_optional_entries to_woql_type_xsd ClassDoc_empty Person).
  - simpl. tauto.
  - repeat constructor.
Defined.

Lemma X9_describe_keys_witness :
  NoDup (dict_keys
           [ ("@type", VStr "Class"); ("@id", VStr "Person");
             ("@key", VDict [("@type", VStr "Lexical");
                             ("@fields", VList [VStr "name"])]);
             ("name", VStr "xsd:string"); ("age", VStr "xsd:integer") ]).
Proof.
  exact (proj1 (@X9_describe_keys to_woql_type_xsd ClassDoc_empty Person
                  _ eq_refl)).
Defined.

(** ** The document of an instance *)

Lemma loop_keys c attrs keys result :
  NoDup keys ->
  (forall k, In k keys -> ~ In k (dict_keys result)) ->
  dict_keys (fold_left (add_field (VObj c attrs) (entries_of attrs))
                       keys result)
  = dict_keys result ++ filter (is_emitted (VObj c attrs)) keys.
Proof.
  revert result. induction keys as [|k0 keys IH]; intros result Hnd Hfresh.
  - cbn [fold_left filter]. now rewrite app_nil_r.
  - inversion Hnd as [|? ? Hnotin Hnd']; subst.
    cbn [fold_left filter]. rewrite add_field_emitted.
    assert (Hem : is_emitted (VObj c attrs) k0
                  = match emitted (VObj c attrs) k0 with
                    | Some _ => true
                    | None => false
                    end) by reflexivity.
    rewrite Hem. clear Hem.
    destruct (emitted (VObj c attrs) k0) as [e|].
    + rewrite IH; [|exact Hnd'|].
      * rewrite dict_keys_set. unfold dict_has.
        assert (Hnone : dict_get result k0 = None).
        { apply dict_get_None_iff. apply Hfresh. now left. }
        rewrite Hnone, <- app_assoc. reflexivity.
      * intros k Hk Hin. apply dict_keys_set_in in Hin.
        destruct Hin as [->|Hin]; [tauto|].
        apply (Hfresh k); [now right|exact Hin].
    + apply IH; [exact Hnd'|]. intros k Hk. apply Hfresh. now right.
Qed.

Lemma initial_result_keys c attrs :
  dict_keys (initial_result c attrs)
  = "@type" :: (if dict_has attrs "_id" then ["@id"] else []).
Proof.
  unfold initial_result, dict_has. now destruct (dict_get attrs "_id").
Qed.

(** X10: the document of an instance carries the class name under
    ["@type"], and an ["@id"] entry exactly when the instance has an [_id]
    attribute, with the value of that attribute. *)
Theorem X10_document_type_and_id (c : pyclass) (attrs : dict value) :
  Forall (fun k => reserved_key k = false) (dict_keys (c_annotations c)) ->
  dict_get (to_document (VObj c attrs)) "@type" = Some (VStr (c_name c))
  /\ dict_get (to_document (VObj c attrs)) "@id" = dict_get attrs "_id".
Proof.
  intros Hann.
  assert (Hfresh : forall k, reserved_key k = true ->
                             ~ In k (dict_keys (c_annotations c))).
  { intros k Hk Hin. rewrite Forall_forall in Hann.
    apply Hann in Hin. congruence. }
  unfold to_document. rewrite _obj_to_dict_eq. split.
  - rewrite loop_skips by (right; now apply Hfresh).
    unfold initial_result. destruct (dict_get attrs "_id"); reflexivity.
  - rewrite loop_skips by (right; now apply Hfresh).
    unfold initial_result. destruct (dict_get attrs "_id"); reflexivity.
Qed.

(** X11: the keys of the document are ["@type"], then ["@id"] when the
    instance has an identifier, then the declared fields whose value is not
    [None], in the order of their declaration; attributes of the instance
    that are not declared fields do not appear. *)
Theorem X11_document_key_order (c : pyclass) (attrs : dict value) :
  NoDup (dict_keys (c_annotations c)) ->
  Forall (fun k => reserved_key k = false) (dict_keys (c_annotations c)) ->
  dict_keys (to_document (VObj c attrs))
  = "@type" :: (if dict_has attrs "_id" then ["@id"] else [])
      ++ filter (is_emitted (VObj c attrs)) (dict_keys (c_annotations c)).
Proof.
  intros Hnd Hann. unfold to_document. rewrite _obj_to_dict_eq.
  rewrite loop_keys, initial_result_keys; [reflexivity|exact Hnd|].
  intros k Hk. rewrite initial_result_keys.
  rewrite Forall_forall in Hann. apply Hann in Hk.
  intros [<-|Hin]; [discriminate|].
  destruct (dict_has attrs "_id"); [|destruct Hin].
  destruct Hin as [<-|[]]. discriminate.
Qed.

(** X12: a field holding a list is stored as a list of the same length in
    which every document instance is replaced by its own document, whether
    or not it carries an identifier, and every other element is kept as it
    is. *)
Theorem X12_list_field (c : pyclass) (attrs : dict value)
    (item : string) (l : list value) :
  In item (dict_keys (c_annotations c)) ->
  dict_get attrs item = Some (VList l) ->
  dict_get (to_document (VObj c attrs)) item = Some (VList (map_subs l))
  /\ List.length (map_subs l) = List.length l
  /\ forall i x,
       nth_error l i = Some x ->
       nth_error (map_subs l) i
       = Some (if has_obj_to_dict x then _obj_to_dict x else x).
Proof.
  intros Hin Hget. split; [|split].
  - now rewrite (@to_document_field c attrs item (VList l) Hin Hget eq_refl).
  - unfold map_subs. clear Hget.
    induction l as [|x l IH]; simpl; [reflexivity|now rewrite IH].
  - intros i x Hx. unfold map_subs.
    exact (map_nth_error
             (fun sub_item => if has_obj_to_dict sub_item
                              then _obj_to_dict sub_item else sub_item)
             i l Hx).
Qed.

(** X13: a field holding a boolean, an integer, a string or a dictionary is
    stored as that very value, and a field holding an enumeration member
    is stored as the string form of the member. *)
Theorem X13_plain_and_enum_fields (c : pyclass) (attrs : dict value)
    (item : string) (v : value) :
  In item (dict_keys (c_annotations c)) ->
  dict_get attrs item = Some v ->
  (is_plain v = true ->
   dict_get (to_document (VObj c attrs)) item = Some v)
  /\ (forall cls s, v = VEnum cls s ->
        dict_get (to_document (VObj c attrs)) item = Some (VStr s)).
Proof.
  intros Hin Hget. split.
  - intros Hplain. destruct v; try discriminate Hplain;
      now rewrite (@to_document_field c attrs item _ Hin Hget eq_refl).
  - intros cls s ->.
    now rewrite (@to_document_field c attrs item _ Hin Hget eq_refl).
Qed.

Lemma X10_document_type_and_id_witness :
  dict_get (to_document team) "@type" = Some (VStr "Team")
  /\ dict_get (to_document team) "@id" = Some (VStr "Team_1").
Proof.
  apply (@X10_document_type_and_id Team team_attrs). repeat constructor.
Defined.

Lemma X11_document_key_order_witness :
  dict_keys (to_document (holder (VBool true)))
  = ["@type"; "note"; "home"; "friend"].
Proof.
  refine (@X11_document_key_order Holder (holder_attrs (VBool true)) _ _).
  - simpl. repeat constructor; simpl; intuition discriminate.
  - repeat constructor.
Defined.

Lemma X12_list_field_witness :
  dict_get (to_document team) "members"
  = Some (VList [_obj_to_dict a_friend; VStr "guest"]).
Proof.
  refine (proj1 (@X12_list_field Team team_attrs "members"
                   [a_friend; VStr "guest"] _ eq_refl)).
  simpl. tauto.
Defined.

Lemma X13_plain_and_enum_fields_witness :
  dict_get (to_document team) "title" = Some (VStr "Core")
  /\ dict_get (to_document team) "level" = Some (VStr "high").
Proof.
  split.
  - refine (proj1 (@X13_plain_and_enum_fields Team team_attrs "title"
                     (VStr "Core") _ eq_refl) eq_refl).
    simpl. tauto.
  - refine (proj2 (@X13_plain_and_enum_fields Team team_attrs "level"
                     (VEnum "Level" "high") _ eq_refl) "Level" "high" eq_refl).
    simpl. tauto.
Defined.

(** ** Identifiers computed from dictionaries *)

Lemma string_append_assoc (a b c : string) :
  ((a ++ b) ++ c)%string = (a ++ (b ++ c))%string.
Proof.
  induction a as [|ch a IH]; [reflexivity|].
  change (String ch ((a ++ b) ++ c)%string = String ch (a ++ (b ++ c))%string).
  f_equal. exact IH.
Qed.

Lemma string_length_append (a b : string) :
  String.length (a ++ b)%string = (String.length a + String.length b)%nat.
Proof.
  induction a as [|ch a IH]; [reflexivity|].
  change (S (String.length (a ++ b)%string)
          = S (String.length a + String.length b)).
  f_equal. exact IH.
Qed.

Lemma string_append_cancel (p a b : string) :
  (p ++ a)%string = (p ++ b)%string -> a = b.
Proof.
  induction p as [|ch p IH].
  - change (a = b -> a = b). auto.
  - change (String ch (p ++ a)%string = String ch (p ++ b)%string -> a = b).
    intros [= H]. auto.
Qed.

Section IdgenOnDicts.
Variable CONVERT_TYPE : list (pytype * string).

Lemma key_list_stops d good k rest :
  Forall (dict_key_ok CONVERT_TYPE (VDict d)) good ->
  hasattr (VDict d) k = false ->
  key_list CONVERT_TYPE (good ++ k :: rest) (VDict d)
  = if is_None (obj_get (VDict d) k) then Raise (ValueError_cannot_get k)
    else if isinstance (obj_get (VDict d) k) (map fst CONVERT_TYPE)
         then tl <- key_list CONVERT_TYPE rest (VDict d) ;;
              Ok (map (key_str (VDict d)) good
                    ++ py_str (obj_get (VDict d) k) :: tl)
         else Raise ValueError_not_datatype.
Proof.
  intros Hgood Hattr.
  induction Hgood as [|g good [Hga [Hgn Hgt]] _ IH].
  - cbn [app key_list map]. unfold read_key_item.
    rewrite Hattr. cbn [is_dict andb].
    destruct (is_None (obj_get (VDict d) k)); cbn [negb bind]; [reflexivity|].
    destruct (isinstance (obj_get (VDict d) k) (map fst CONVERT_TYPE));
      [|reflexivity].
    destruct (key_list CONVERT_TYPE rest (VDict d)); reflexivity.
  - cbn [app key_list map]. unfold read_key_item at 1.
    rewrite Hga. cbn [is_dict andb]. rewrite Hgn. cbn [negb bind].
    rewrite Hgt, IH.
    destruct (is_None (obj_get (VDict d) k)); cbn [bind]; [reflexivity|].
    destruct (isinstance (obj_get (VDict d) k) (map fst CONVERT_TYPE));
      cbn [bind]; [|reflexivity].
    destruct (key_list CONVERT_TYPE rest (VDict d)); reflexivity.
Qed.

(** X14: on a dictionary, let the keys before [k] all be served and let
    [k] be no name of an attribute of [dict] objects (as ["items"] or
    ["keys"] are).  When [k] is absent or holds [None], both [HashKey.idgen]
    and [LexicalKey.idgen] raise the "Cannot get" [ValueError] for [k];
    when [k] holds a value whose type is not in the conversion table they
    raise the "datatype" [ValueError].  Either error comes before any look
    at the prefix. *)
Theorem X14_idgen_key_errors
    (d : dict value) (good : list string) (k : string) (rest : list string) :
  Forall (dict_key_ok CONVERT_TYPE (VDict d)) good ->
  hasattr (VDict d) k = false ->
  (is_None (obj_get (VDict d) k) = true ->
   HashKey_idgen CONVERT_TYPE (KeysList (good ++ k :: rest)) (VDict d)
     = Raise (ValueError_cannot_get k)
   /\ LexicalKey_idgen CONVERT_TYPE (KeysList (good ++ k :: rest)) (VDict d)
      = Raise (ValueError_cannot_get k))
  /\ (is_None (obj_get (VDict d) k) = false ->
      isinstance (obj_get (VDict d) k) (map fst CONVERT_TYPE) = false ->
      HashKey_idgen CONVERT_TYPE (KeysList (good ++ k :: rest)) (VDict d)
        = Raise ValueError_not_datatype
      /\ LexicalKey_idgen CONVERT_TYPE (KeysList (good ++ k :: rest)) (VDict d)
         = Raise ValueError_not_datatype).
Proof.
  intros Hgood Hattr.
  unfold HashKey_idgen, LexicalKey_idgen. cbn [iter_keys].
  rewrite (@key_list_stops d good k rest Hgood Hattr).
  split.
  - intros ->. split; reflexivity.
  - intros -> ->. split; reflexivity.
Qed.

(** X15: on a dictionary whose configured key fields can all be served,
    [LexicalKey.idgen] returns the prefix followed by the percent-encoding
    of the ["_"]-join of the keys' string forms, in the configured order. *)
Theorem X15_lexical_idgen_on_dict (d : dict value) (keys : list string) :
  Forall (dict_key_ok CONVERT_TYPE (VDict d)) keys ->
  LexicalKey_idgen CONVERT_TYPE (KeysList keys) (VDict d)
  = bind (idgen_prefix (VDict d))
      (fun prefix =>
         Ok (prefix
               ++ quote (String.concat "_" (map (key_str (VDict d)) keys))
            )%string).
Proof.
  intros Hkeys. unfold LexicalKey_idgen. cbn [iter_keys].
  now rewrite (@key_list_dict CONVERT_TYPE d keys Hkeys).
Qed.

(** X16: the separator is not escaped, so key values are not recovered
    from an identifier: two dictionaries of the same prefix whose two key
    fields hold [x_y] and [z], resp. [x] and [y_z], are given the same
    Lexical identifier and the same Hash identifier. *)
Theorem X16_separator_collision
    (d1 d2 : dict value) (a b : string) (x y z : string) :
  Forall (dict_key_ok CONVERT_TYPE (VDict d1)) [a; b] ->
  Forall (dict_key_ok CONVERT_TYPE (VDict d2)) [a; b] ->
  obj_get (VDict d1) a = VStr (x ++ "_" ++ y) ->
  obj_get (VDict d1) b = VStr z ->
  obj_get (VDict d2) a = VStr x ->
  obj_get (VDict d2) b = VStr (y ++ "_" ++ z) ->
  idgen_prefix (VDict d1) = idgen_prefix (VDict d2) ->
  LexicalKey_idgen CONVERT_TYPE (KeysList [a; b]) (VDict d1)
    = LexicalKey_idgen CONVERT_TYPE (KeysList [a; b]) (VDict d2)
  /\ HashKey_idgen CONVERT_TYPE (KeysList [a; b]) (VDict d1)
     = HashKey_idgen CONVERT_TYPE (KeysList [a; b]) (VDict d2).
Proof.
  intros H1 H2 Ha1 Hb1 Ha2 Hb2 Hprefix.
  unfold LexicalKey_idgen, HashKey_idgen. cbn [iter_keys].
  rewrite (@key_list_dict CONVERT_TYPE d1 [a; b] H1).
  rewrite (@key_list_dict CONVERT_TYPE d2 [a; b] H2).
  cbn [bind map]. unfold key_str.
  rewrite Ha1, Hb1, Ha2, Hb2, Hprefix. cbn [py_str String.concat].
  replace ((x ++ "_" ++ y) ++ "_" ++ z)%string
    with (x ++ "_" ++ y ++ "_" ++ z)%string
    by (now rewrite string_append_assoc).
  split; reflexivity.
Qed.
End IdgenOnDicts.

Lemma hex_digest_length (s : string) :
  String.length (sha256_hexdigest s) = 64%nat.
Proof.
  unfold sha256_hexdigest, SHA256.hexdigest, SHA256.digest_words.
  destruct (fold_left SHA256.compress _ SHA256.init_state)
    as [[[[[[[a b] c] d] e] f] g] h].
  assert (Hcat : forall l : list Z,
             String.length (String.concat "" (map SHA256.hex_byte l))
             = (2 * List.length l)%nat).
  { induction l as [|x l IH]; [reflexivity|].
    cbn [map String.concat]. destruct l as [|x' l].
    - reflexivity.
    - cbn [map] in *. rewrite !string_length_append, IH.
      change (String.length (SHA256.hex_byte x)) with 2%nat.
      cbn [String.length List.length]. lia. }
  rewrite Hcat. reflexivity.
Qed.

(** X17: a Hash identifier computed from a dictionary is the prefix
    followed by exactly 64 characters, whatever the key values are. *)
Theorem X17_hash_identifier_length
    (CONVERT_TYPE : list (pytype * string))
    (d : dict value) (keys : list string) (prefix : string) :
  Forall (dict_key_ok CONVERT_TYPE (VDict d)) keys ->
  idgen_prefix (VDict d) = Ok prefix ->
  exists digest,
    HashKey_idgen CONVERT_TYPE (KeysList keys) (VDict d)
    = Ok (prefix ++ digest)%string
    /\ String.length digest = 64%nat.
Proof.
  intros Hkeys Hprefix. unfold HashKey_idgen. cbn [iter_keys].
  rewrite (@key_list_dict CONVERT_TYPE d keys Hkeys), Hprefix. cbn [bind].
  eexists. split; [reflexivity|apply hex_digest_length].
Qed.

(** X18: [RandomKey.idgen] never reads a field of the object: on an
    instance it returns the namespace, ["_"] and the random token, the
    namespace being [_base] when the class defines it as a string and the
    class name when it does not define it; a [_base] that is not a string
    makes it raise [TypeError]; and two calls on one object return the same
    identifier only if they drew the same token. *)
Theorem X18_random_idgen (c : pyclass) (attrs : dict value) :
  (c_base c = None ->
   forall token, RandomKey_idgen token (VObj c attrs)
                 = Ok ((c_name c ++ "_") ++ token)%string)
  /\ (forall b, c_base c = Some (VStr b) ->
      forall token, RandomKey_idgen token (VObj c attrs)
                    = Ok ((b ++ "_") ++ token)%string)
  /\ (forall v, c_base c = Some v -> (forall b, v <> VStr b) ->
      forall token, RandomKey_idgen token (VObj c attrs)
                    = Raise TypeError_concat)
  /\ (forall token1 token2 id,
        RandomKey_idgen token1 (VObj c attrs) = Ok id ->
        RandomKey_idgen token2 (VObj c attrs) = Ok id ->
        token1 = token2).
Proof.
  unfold RandomKey_idgen, idgen_prefix. cbn [is_dict andb class_of].
  repeat split.
  - intros -> token. reflexivity.
  - intros b -> token. reflexivity.
  - intros v -> Hv token. destruct v; try reflexivity.
    now destruct (Hv s).
  - intros token1 token2 id.
    destruct (c_base c) as [[]|]; cbn [add_str bind class_has_name];
      try discriminate;
      intros [= <-] [= H]; now apply string_append_cancel in H.
Qed.

Lemma X14_idgen_key_errors_witness :
  LexicalKey_idgen CONVERT_TYPE_xsd (KeysList ["name"; "email"]) ann_dict
  = Raise (ValueError_cannot_get "email").
Proof.
  refine (proj2 (proj1 (@X14_idgen_key_errors CONVERT_TYPE_xsd
                          [("@type", VStr "Person"); ("name", VStr "Ann Lee"); ("age", VInt 30)]
                          ["name"] "email" [] _ eq_refl) eq_refl)).
  repeat constructor.
Defined.

Lemma X15_lexical_idgen_on_dict_witness :
  LexicalKey_idgen CONVERT_TYPE_xsd (KeysList ["name"; "age"]) ann_dict
  = Ok "Person_Ann%20Lee_30".
Proof.
  refine (eq_trans (@X15_lexical_idgen_on_dict CONVERT_TYPE_xsd
                      [("@type", VStr "Person"); ("name", VStr "Ann Lee"); ("age", VInt 30)]
                      ["name"; "age"] _) _).
  - repeat constructor.
  - reflexivity.
Defined.

Lemma X16_separator_collision_witness :
  LexicalKey_idgen CONVERT_TYPE_xsd (KeysList ["a"; "b"])
    (VDict [("@type", VStr "Pair"); ("a", VStr "x_y"); ("b", VStr "z")])
  = LexicalKey_idgen CONVERT_TYPE_xsd (KeysList ["a"; "b"])
      (VDict [("@type", VStr "Pair"); ("a", VStr "x"); ("b", VStr "y_z")]).
Proof.
  refine (proj1 (@X16_separator_collision CONVERT_TYPE_xsd
                   [("@type", VStr "Pair"); ("a", VStr "x_y"); ("b", VStr "z")]
                   [("@type", VStr "Pair"); ("a", VStr "x"); ("b", VStr "y_z")]
                   "a" "b" "x" "y" "z" _ _
                   eq_refl eq_refl eq_refl eq_refl eq_refl)).
  - repeat constructor.
  - repeat constructor.
Defined.

Lemma X17_hash_identifier_length_witness :
  exists digest,
    HashKey_idgen CONVERT_TYPE_xsd (KeysList ["name"]) ann_dict
    = Ok ("Person_" ++ digest)%string
    /\ String.length digest = 64%nat.
Proof.
  apply (@X17_hash_identifier_length CONVERT_TYPE_xsd
           [("@type", VStr "Person"); ("name", VStr "Ann Lee"); ("age", VInt 30)]
           ["name"] "Person_").
  - repeat constructor.
  - reflexivity.
Defined.

Lemma X18_random_idgen_witness :
  RandomKey_idgen "0f8fad5bd9cb469fa16570867728950e" (ann Person)
  = Ok "Person_0f8fad5bd9cb469fa16570867728950e".
Proof.
  exact (proj1 (X18_random_idgen Person ann_kwargs) eq_refl
               "0f8fad5bd9cb469fa16570867728950e").
Defined.

(** ** Containers: registration and duplication *)

Module StoreMore.
Import stdpp.base stdpp.option stdpp.gmap.
Import Store.

(** X19: [add_obj] puts the class into the set of the container and of no
    other container, and leaves the classes untouched; registering a class
    a second time changes nothing. *)
Theorem X19_add_obj_registers_once
    (st : store) (self : addr) (objects : gset addr) (obj : addr) :
  st_schemas st !! self = Some objects ->
  exists st1,
    add_obj st self obj = Some st1
    /\ all_obj st1 self = Some ({[obj]} ∪ objects)
    /\ st_classes st1 = st_classes st
    /\ (forall other, other <> self -> all_obj st1 other = all_obj st other)
    /\ add_obj st1 self obj = Some st1
    /\ (obj ∈ objects -> st1 = st).
Proof.
  intros Hself. unfold add_obj. rewrite Hself. cbn.
  eexists. split; [reflexivity|]. unfold all_obj. cbn.
  split; [apply lookup_insert_eq|].
  split; [reflexivity|].
  split; [intros other Hne; now apply lookup_insert_ne|].
  split.
  - rewrite lookup_insert_eq. cbn. f_equal. f_equal.
    rewrite insert_insert_eq. f_equal. set_solver.
  - intros Hin. destruct st as [classes schemas]. cbn in *. f_equal.
    replace ({[obj]} ∪ objects) with objects by set_solver.
    now apply insert_id.
Qed.

Lemma X19_add_obj_registers_once_witness :
  exists st1,
    add_obj person_store 0%nat 1%nat = Some st1
    /\ all_obj st1 0%nat = Some ({[1%nat]} ∪ {[0%nat]}).
Proof.
  destruct (@X19_add_obj_registers_once person_store 0%nat {[0%nat]} 1%nat
              (lookup_singleton_eq _ _)) as (st1 & Hadd & Hall & _).
  exists st1. auto.
Defined.

(** X20: [WOQLSchema()] makes a container that is distinct from every
    existing one and holds no class; the existing containers and the
    classes are as before, and a class registered in the new container is
    its only element. *)
Theorem X20_new_container_is_empty (st : store) :
  st_schemas st !! (WOQLSchema_init st).1 = None
  /\ all_obj (WOQLSchema_init st).2 (WOQLSchema_init st).1 = Some ∅
  /\ st_classes (WOQLSchema_init st).2 = st_classes st
  /\ (forall other objects,
        all_obj st other = Some objects ->
        all_obj (WOQLSchema_init st).2 other = Some objects)
  /\ (forall obj, exists st1,
        add_obj (WOQLSchema_init st).2 (WOQLSchema_init st).1 obj = Some st1
        /\ all_obj st1 (WOQLSchema_init st).1 = Some {[obj]}).
Proof.
  pose proof (StoreFacts.fresh_schema_unused st) as Hfresh.
  unfold WOQLSchema_init, all_obj, add_obj. cbn.
  split; [exact Hfresh|].
  split; [apply lookup_insert_eq|].
  split; [reflexivity|].
  split.
  - intros other objects Hother.
    rewrite lookup_insert_ne; [exact Hother|]. intros <-. congruence.
  - intros obj. rewrite lookup_insert_eq. cbn.
    eexists. split; [reflexivity|]. cbn.
    rewrite lookup_insert_eq. f_equal. set_solver.
Qed.

Lemma X20_new_container_is_empty_witness :
  all_obj (WOQLSchema_init person_store).2 0%nat = Some {[0%nat]}.
Proof.
  exact (proj1 (proj2 (proj2 (proj2 (X20_new_container_is_empty person_store))))
               0%nat {[0%nat]} (lookup_singleton_eq _ _)).
Defined.

(** X21: after [copy], registering a class in the original container
    leaves the copy with the classes it had when it was made; and [copy]
    changes no existing container. *)
Theorem X21_copy_keeps_its_classes
    (st : store) (self : addr) (objects : gset addr) :
  st_schemas st !! self = Some objects ->
  exists new st',
    WOQLSchema_copy st self = Some (new, st')
    /\ (forall other, other <> new -> all_obj st' other = all_obj st other)
    /\ (forall obj, exists st'',
          add_obj st' self obj = Some st''
          /\ all_obj st'' self = Some ({[obj]} ∪ objects)
          /\ all_obj st'' new = Some objects).
Proof.
  intros Hself.
  pose proof (StoreFacts.fresh_schema_unused st) as Hfresh.
  exists (fresh (dom (st_schemas st))),
         (MkStore (st_classes st)
                  (<[fresh (dom (st_schemas st)) := objects]> (st_schemas st))).
  assert (Hne : fresh (dom (st_schemas st)) <> self)
    by (intros Heq; rewrite Heq in Hfresh; congruence).
  split; [now apply StoreFacts.copy_result|].
  split.
  - intros other Hother. unfold all_obj. cbn.
    now apply lookup_insert_ne.
  - intros obj. unfold add_obj, all_obj. cbn.
    rewrite lookup_insert_ne by exact Hne. rewrite Hself. cbn.
    eexists. split; [reflexivity|]. cbn.
    split; [apply lookup_insert_eq|].
    rewrite lookup_insert_ne by congruence.
    apply lookup_insert_eq.
Qed.

Lemma X21_copy_keeps_its_classes_witness :
  exists new st',
    WOQLSchema_copy person_store 0%nat = Some (new, st')
    /\ exists st'',
         add_obj st' 0%nat 1%nat = Some st''
         /\ all_obj st'' new = Some {[0%nat]}.
Proof.
  destruct (@X21_copy_keeps_its_classes person_store 0%nat {[0%nat]}
              (lookup_singleton_eq _ _)) as (new & st' & Hcopy & _ & Hadd).
  destruct (Hadd 1%nat) as (st'' & Ha & _ & Hn).
  exists new, st'. split; [exact Hcopy|]. exists st''. auto.
Defined.
End StoreMore.
